(** * Peer assessment report generator: a shallow embedding

    The repository holds two scripts, [pa_report.py] and
    [peer_assessment_report.py], that read a peer-assessment survey export,
    average the ratings every student received from the other raters, shift
    the averages so that the mean of all ratings lands on a target, round and
    clamp them into [0, 9], collect the written comments and print a report.
    The scoring functions of the two scripts are the same text; the scripts
    differ in [generate_report] only.

    Conventions of the embedding:
    - a Python [str] is a [string]; characters are taken in the ASCII range,
      so the Unicode-only behaviour of [str.strip], [str.lower], [int] and of
      [re.IGNORECASE] outside that range is not represented;
    - a Python [int] is a [Z];
    - a Python [float] is an exact rational [Qc]: binary64 rounding error,
      the [OverflowError] of a true division or of [round] on a value out of
      range, and the values [inf] and [nan] are not represented, and [round]
      is round-half-to-even on the exact value. The properties below are
      stated so that they do not rest on that exactness: where one needs the
      ratings to be in the range that binary64 holds exactly, the range is a
      hypothesis;
    - a raised exception is the [Raise] outcome of the [result] monad;
    - the insertion-ordered dict [students] is an association list updated
      with [dict_set]; the dicts whose iteration order is never observed
      ([raw_avgs], [normalised], [comments]) are [gmap]s;
    - [print] appends a [line] to the output of the [io] monad. *)

From Stdlib Require Import Ascii String QArith Qcanon Qround Lqa.
From stdpp Require Import base numbers list gmap strings sorting.

(** ** Exceptions and the error monad *)

Inductive exn : Type :=
  | IndexError
  | KeyError
  | ValueError
  | SystemExit (code : Z).

Global Instance exn_eq_dec : EqDecision exn.
Proof. solve_decision. Defined.

Inductive result (A : Type) : Type :=
  | Ok (a : A)
  | Raise (e : exn).
Arguments Ok {A} a.
Arguments Raise {A} e.

Global Instance result_ret : MRet result := λ A a, Ok a.
Global Instance result_bind : MBind result := λ A B f m,
  match m with
  | Ok a => f a
  | Raise e => Raise e
  end.
Global Instance result_fmap : FMap result := λ A B f m,
  match m with
  | Ok a => Ok (f a)
  | Raise e => Raise e
  end.

(** [try: body except handled: pass], for a body that leaves the state [s]
    untouched up to the point where it raises. *)
Definition try_except_pass {S : Type} (handled : exn → bool) (s : S)
    (body : result S) : result S :=
  match body with
  | Ok s' => Ok s'
  | Raise e => if handled e then Ok s else Raise e
  end.

(** [for x in l: s = body(s, x)], stopping at the first exception. *)
Fixpoint for_each {A S : Type} (body : S → A → result S) (s : S) (l : list A)
    : result S :=
  match l with
  | [] => Ok s
  | x :: l' => s' ← body s x; for_each body s' l'
  end.

(** ** Built-ins *)

(** [row[i]] on a list, for a non-negative index. *)
Definition list_getitem {A : Type} (l : list A) (i : nat) : result A :=
  match l !! i with
  | Some x => Ok x
  | None => Raise IndexError
  end.

(** [d[k]] on a plain dict. *)
Definition dict_getitem {V : Type} (d : gmap string V) (k : string) : result V :=
  match d !! k with
  | Some v => Ok v
  | None => Raise KeyError
  end.

(** [d.get(k, dflt)]. *)
Definition dict_get {V : Type} (d : gmap string V) (k : string) (dflt : V) : V :=
  default dflt (d !! k).

(** [d.values()]. *)
Definition dict_values {V : Type} (d : gmap string V) : list V :=
  (map_to_list d).*2.

(** [d[k] = v] on an insertion-ordered dict: an existing key keeps its place. *)
Fixpoint dict_set {V : Type} (k : string) (v : V) (d : list (string * V))
    : list (string * V) :=
  match d with
  | [] => [(k, v)]
  | (k', v') :: d' =>
      if decide (k = k') then (k, v) :: d' else (k', v') :: dict_set k v d'
  end.

(** [c.isspace()] for an ASCII character: tab, line feed, vertical tab, form
    feed, carriage return, the four separators 0x1c-0x1f and the space. *)
Definition isspace (c : ascii) : bool :=
  let n := N_of_ascii c in
  ((9 <=? n) && (n <=? 13) || (28 <=? n) && (n <=? 32))%N.

Fixpoint lstrip (s : string) : string :=
  match s with
  | EmptyString => EmptyString
  | String c s' => if isspace c then lstrip s' else s
  end.

Fixpoint rstrip (s : string) : string :=
  match s with
  | EmptyString => EmptyString
  | String c s' =>
      match rstrip s' with
      | EmptyString => if isspace c then EmptyString else String c EmptyString
      | r => String c r
      end
  end.

(** [s.strip()]. *)
Definition strip (s : string) : string := lstrip (rstrip s).

Definition digit_value (c : ascii) : option Z :=
  let n := N_of_ascii c in
  if ((48 <=? n) && (n <=? 57))%N then Some (Z.of_N (n - 48)) else None.

(** The digits of a decimal literal: one or more digits, with single
    underscores allowed between two digits. [prev_digit] tells whether the
    character just read was a digit. *)
Fixpoint int_digits (s : string) (acc : Z) (prev_digit : bool) : option Z :=
  match s with
  | EmptyString => if prev_digit then Some acc else None
  | String c s' =>
      match digit_value c with
      | Some d => int_digits s' (10 * acc + d)%Z true
      | None =>
          if prev_digit && bool_decide (c = "_"%char)
          then int_digits s' acc false
          else None
      end
  end.

(** The whitespace that [int] skips around the literal of an ASCII string:
    tab, line feed, vertical tab, form feed, carriage return and space (the
    separators 0x1c-0x1f, which [str.strip] removes, are not skipped). *)
Definition int_space (c : ascii) : bool :=
  let n := N_of_ascii c in
  ((9 <=? n) && (n <=? 13) || (n =? 32))%N.

Fixpoint int_skip_left (s : string) : string :=
  match s with
  | EmptyString => EmptyString
  | String c s' => if int_space c then int_skip_left s' else s
  end.

Fixpoint int_skip_right (s : string) : string :=
  match s with
  | EmptyString => EmptyString
  | String c s' =>
      match int_skip_right s' with
      | EmptyString => if int_space c then EmptyString else String c EmptyString
      | r => String c r
      end
  end.

(** The number of digit characters of a literal. *)
Fixpoint count_digits (s : string) : N :=
  match s with
  | EmptyString => 0%N
  | String c s' =>
      match digit_value c with
      | Some _ => N.succ (count_digits s')
      | None => count_digits s'
      end
  end.

(** The interpreter's default limit on the digits of a decimal literal
    ([sys.get_int_max_str_digits()]). *)
Definition max_str_digits : N := 4300%N.

(** [int(s)] in base 10: surrounding whitespace is skipped, one sign is
    allowed, the digits may not be more than the limit, anything else
    raises [ValueError]. *)
Definition int (s : string) : result Z :=
  let literal := int_skip_left (int_skip_right s) in
  let parsed :=
    match literal with
    | String "+" s' => int_digits s' 0%Z false
    | String "-" s' => Z.opp <$> int_digits s' 0%Z false
    | s' => int_digits s' 0%Z false
    end in
  match parsed with
  | Some z =>
      if (count_digits literal <=? max_str_digits)%N then Ok z
      else Raise ValueError
  | None => Raise ValueError
  end.

(** [sum(l)] and [sum(l) / len(l)] on a list of ints. *)
Definition sum (l : list Z) : Z := foldr Z.add 0%Z l.

(** The quotient is exact here; Python rounds it to binary64 and raises
    [OverflowError] when it is out of the range of a float. *)
Definition true_div (a : Z) (b : nat) : Qc :=
  (Qc_of_Z a / Qc_of_Z (Z.of_nat b))%Qc.

Definition half : Qc := (1 / 2)%Qc.

(** [round(x)] with one argument: the nearest integer, a tie going to the
    even neighbour. The argument is the exact value; Python rounds the
    binary64 value, which can lie on the other side of a tie. *)
Definition round (x : Qc) : Z :=
  let f := Qfloor x in
  let frac := (x - Qc_of_Z f)%Qc in
  if decide (frac < half)%Qc then f
  else if decide (half < frac)%Qc then (f + 1)%Z
  else if Z.even f then f else (f + 1)%Z.

(** ** The student registry *)

(** The value stored per student:
    [{'overall': i, 'justification': i + 1}]. *)
Record cols : Type := Cols { overall : nat; justification : nat }.

Global Instance cols_eq_dec : EqDecision cols.
Proof. solve_decision. Defined.

(** [rater = row[name_col] if name_col is not None else None] *)
Definition rater_of (row : list string) (name_col : option nat)
    : result (option string) :=
  match name_col with
  | Some c => Some <$> list_getitem row c
  | None => Ok None
  end.

(** ** calculate_scores *)

Definition handles_value_index (e : exn) : bool :=
  match e with
  | ValueError | IndexError => true
  | _ => false
  end.

(** The body of [for row in data] in [calculate_scores]; the state is the
    pair of the lists [scores] and [all_scores]. *)
Definition score_row (student : string) (c : cols) (name_col : option nat)
    (st : list Z * list Z) (row : list string) : result (list Z * list Z) :=
  rater ← rater_of row name_col;
  if decide (rater = Some student) then Ok st
  else
    try_except_pass handles_value_index st
      (cell ← list_getitem row (overall c);
       score ← int cell;
       Ok (st.1 ++ [score], st.2 ++ [score])).

(** [sum(scores) / len(scores) if scores else 0] *)
Definition average (scores : list Z) : Qc :=
  match scores with
  | [] => 0%Qc
  | _ => true_div (sum scores) (length scores)
  end.

(** The body of [for student, cols in students.items()]. *)
Definition score_student (data : list (list string)) (name_col : option nat)
    (st : gmap string Qc * list Z) (entry : string * cols)
    : result (gmap string Qc * list Z) :=
  '(scores, all_scores) ←
    for_each (score_row entry.1 entry.2 name_col) ([], st.2) data;
  Ok (<[entry.1 := average scores]> st.1, all_scores).

Definition calculate_scores (data : list (list string))
    (students : list (string * cols)) (name_col : option nat)
    : result (gmap string Qc * list Z) :=
  for_each (score_student data name_col) (∅, []) students.

(** ** normalize_scores *)

(** [max(0, min(9, norm_score))] *)
Definition clamp (z : Z) : Z := Z.max 0 (Z.min 9 z).

(** The body of [for student, raw in raw_avgs.items()]. *)
Definition normalise_one (adjustment : Qc) (student : string) (raw : Qc)
    (normalised : gmap string Z) : gmap string Z :=
  let norm_score := (raw + adjustment)%Qc in
  let norm_score := round norm_score in
  let norm_score := clamp norm_score in
  <[student := norm_score]> normalised.

Definition normalize_scores (raw_avgs : gmap string Qc) (all_scores : list Z)
    (target : Qc) : gmap string Z * Qc * Qc :=
  match all_scores with
  | [] => (∅, 0%Qc, 0%Qc)
  | _ =>
      let group_mean := true_div (sum all_scores) (length all_scores) in
      let adjustment := (target - group_mean)%Qc in
      let normalised := map_fold (normalise_one adjustment) ∅ raw_avgs in
      (normalised, group_mean, adjustment)
  end.

(** The default value of the parameter [target]. *)
Definition default_target : Qc := Qc_of_Z 5.

(** ** extract_comments *)

(** A [collections.defaultdict]: the entries and the value the factory
    produces for a missing key ([None] when there is no factory). *)
Record defaultdict (V : Type) : Type := DefaultDict {
  default_factory : option V;
  dd_items : gmap string V
}.
Arguments DefaultDict {V} _ _.
Arguments default_factory {V} _.
Arguments dd_items {V} _.

(** [d[k]] on a defaultdict: a missing key is first stored with the factory's
    value; the updated dict is returned with the value. *)
Definition dd_getitem {V : Type} (d : defaultdict V) (k : string)
    : result (V * defaultdict V) :=
  match dd_items d !! k with
  | Some v => Ok (v, d)
  | None =>
      match default_factory d with
      | Some v => Ok (v, DefaultDict (default_factory d) (<[k := v]> (dd_items d)))
      | None => Raise KeyError
      end
  end.

(** [k in d] *)
Definition dd_contains {V : Type} (d : defaultdict V) (k : string) : bool :=
  bool_decide (is_Some (dd_items d !! k)).

(** [d[k].append(x)] on a defaultdict of lists: the list stored under [k] is
    extended in place. *)
Definition dd_append {A : Type} (d : defaultdict (list A)) (k : string) (x : A)
    : result (defaultdict (list A)) :=
  '(l, d') ← dd_getitem d k;
  Ok (DefaultDict (default_factory d') (<[k := l ++ [x]]> (dd_items d'))).

Definition handles_index (e : exn) : bool :=
  match e with
  | IndexError => true
  | _ => false
  end.

(** The body of [for row in data] in [extract_comments]. The only statement
    of the [try] block that can raise [IndexError] is the first one, so the
    handler sees the dict as it was on entry. *)
Definition comment_row (student : string) (c : cols) (name_col : option nat)
    (comments : defaultdict (list string)) (row : list string)
    : result (defaultdict (list string)) :=
  rater ← rater_of row name_col;
  if decide (rater = Some student) then Ok comments
  else
    try_except_pass handles_index comments
      (cell ← list_getitem row (justification c);
       let comment := strip cell in
       if decide (comment = EmptyString) then Ok comments
       else dd_append comments student comment).

(** The body of [for student, cols in students.items()]. *)
Definition comment_student (data : list (list string)) (name_col : option nat)
    (comments : defaultdict (list string)) (entry : string * cols)
    : result (defaultdict (list string)) :=
  for_each (comment_row entry.1 entry.2 name_col) comments data.

Definition extract_comments (data : list (list string))
    (students : list (string * cols)) (name_col : option nat)
    : result (defaultdict (list string)) :=
  for_each (comment_student data name_col) (DefaultDict (Some []) ∅) students.

(** ** extract_students_and_columns *)

(** [c.lower()] for an ASCII character. *)
Definition lower_char (c : ascii) : ascii :=
  let n := N_of_ascii c in
  if ((65 <=? n) && (n <=? 90))%N then ascii_of_N (n + 32) else c.

(** [s.lower()] *)
Fixpoint lower (s : string) : string :=
  match s with
  | EmptyString => EmptyString
  | String c s' => String (lower_char c) (lower s')
  end.

(** A literal of the pattern matched at the start of [s], letters compared
    without case ([re.IGNORECASE]); the result is what follows the match. *)
Fixpoint match_literal (lit s : string) : option string :=
  match lit, s with
  | EmptyString, _ => Some s
  | String a lit', String b s' =>
      if decide (lower_char a = lower_char b) then match_literal lit' s' else None
  | String _ _, EmptyString => None
  end.

(** [(.+)]: the longest run of characters other than a line feed, which must
    not be empty. *)
Fixpoint dot_star (s : string) : string :=
  match s with
  | EmptyString => EmptyString
  | String c s' =>
      if decide (c = "010"%char) then EmptyString else String c (dot_star s')
  end.

Definition dot_plus (s : string) : option string :=
  match dot_star s with
  | EmptyString => None
  | g => Some g
  end.

(** The pattern
    [Please rate (?:the )?overall contribution from (.+)]
    matched at the start of [s]; the result is group 1. The optional article
    is tried first, and left out when the rest does not match with it. *)
Definition overall_pattern_here (s : string) : option string :=
  rest ← match_literal "Please rate " s;
  let tail r := match_literal "overall contribution from " r ≫= dot_plus in
  match match_literal "the " rest ≫= tail with
  | Some g => Some g
  | None => tail rest
  end.

(** [overall_pattern.search(s)]: the match at the leftmost position that has
    one. *)
Fixpoint overall_pattern_search (s : string) : option string :=
  match overall_pattern_here s with
  | Some g => Some g
  | None =>
      match s with
      | EmptyString => None
      | String _ s' => overall_pattern_search s'
      end
  end.

Fixpoint startswith (p s : string) : bool :=
  match p, s with
  | EmptyString, _ => true
  | String a p', String b s' => bool_decide (a = b) && startswith p' s'
  | String _ _, EmptyString => false
  end.

(** [p in s] on strings. *)
Fixpoint contains (p s : string) : bool :=
  startswith p s ||
  match s with
  | EmptyString => false
  | String _ s' => contains p s'
  end.

(** The first loop over [enumerate(headers)], from index [i] on. *)
Fixpoint find_students (headers : list string) (i : nat)
    (students : list (string * cols)) : list (string * cols) :=
  match headers with
  | [] => students
  | header :: headers' =>
      let students :=
        match overall_pattern_search header with
        | Some g => dict_set (strip g) (Cols i (i + 1)) students
        | None => students
        end in
      find_students headers' (S i) students
  end.

(** The second loop over [enumerate(headers)], from index [i] on. *)
Fixpoint find_name_col (headers : list string) (i : nat) : option nat :=
  match headers with
  | [] => None
  | header :: headers' =>
      if contains "select your name" (lower header)
         || contains "your name" (lower header)
      then Some i
      else find_name_col headers' (S i)
  end.

Definition extract_students_and_columns (headers : list string)
    : list (string * cols) * option nat :=
  (find_students headers 0 [], find_name_col headers 0).

(** ** Printing *)

(** One [print] call. A line that formats a number carries the number, the
    layout of the f-string being left out; the other lines carry their
    text. *)
Inductive line : Type :=
  | Rule (c : string)                 (* print(c * 70) *)
  | Text (s : string)                 (* print(s) *)
  | Blank                             (* print() *)
  | ErrorReading (e : exn)             (* print(f"Error reading file: {e}") *)
  | Detected (n : nat) (names : string)
  | TotalStudents (n : nat)
  | GroupMeanRaw (group_mean : Qc)
  | Adjustment (adjustment : Qc)
  | TableHeader (first : string)
  | TableRow (num : nat) (student : string) (raw : Qc) (score : Z)
  | StatMean (int_mean : Qc)
  | StatMedian (median : Z)
  | ScoreLine (score : Z).

(** What a run has printed, and how it ended. *)
Record io (A : Type) : Type := IO { output : list line; outcome : result A }.
Arguments IO {A} _ _.
Arguments output {A} _.
Arguments outcome {A} _.

Global Instance io_ret : MRet io := λ A a, IO [] (Ok a).
Global Instance io_bind : MBind io := λ A B f m,
  match outcome m with
  | Ok a => IO (output m ++ output (f a)) (outcome (f a))
  | Raise e => IO (output m) (Raise e)
  end.

Definition print (l : line) : io unit := IO [l] (Ok tt).

(** An expression evaluated in a statement that prints. *)
Definition eval {A : Type} (r : result A) : io A := IO [] r.

(** [sys.exit(code)] *)
Definition sys_exit {A : Type} (code : Z) : io A := IO [] (Raise (SystemExit code)).

(** [for x in l: s = body(s, x)] in a function that prints. *)
Fixpoint io_for_each {A S : Type} (body : S → A → io S) (s : S) (l : list A)
    : io S :=
  match l with
  | [] => mret s
  | x :: l' => s' ← body s x; io_for_each body s' l'
  end.

(** [sep.join(l)] *)
Fixpoint join (sep : string) (l : list string) : string :=
  match l with
  | [] => EmptyString
  | [s] => s
  | s :: l' => s +:+ sep +:+ join sep l'
  end.

(** [enumerate(l, start)] *)
Fixpoint enumerate {A : Type} (l : list A) (start : nat) : list (nat * A) :=
  match l with
  | [] => []
  | x :: l' => (start, x) :: enumerate l' (S start)
  end.

(** [sorted(l)] on ints. *)
Definition sorted (l : list Z) : list Z := merge_sort Z.le l.

(** [sorted(l, key=key, reverse=True)]: descending keys, elements with equal
    keys in their original order. *)
Fixpoint insert_desc {A : Type} (key : A → Z) (x : A) (l : list A) : list A :=
  match l with
  | [] => [x]
  | y :: l' =>
      if decide (key y ≤ key x)%Z then x :: y :: l'
      else y :: insert_desc key x l'
  end.

Definition sorted_reverse {A : Type} (key : A → Z) (l : list A) : list A :=
  foldr (insert_desc key) [] l.

(** ** generate_report, the part common to the two scripts *)

(** [list(students.keys())] *)
Definition student_keys (students : list (string * cols)) : list string :=
  students.*1.

(** The banner and the summary block. *)
Definition print_summary (n : nat) (group_mean adjustment : Qc) (title : string)
    : io unit :=
  print (Rule "=");;
  print (Text title);;
  print (Rule "=");;
  print Blank;;
  print (TotalStudents n);;
  print (GroupMeanRaw group_mean);;
  print (Adjustment adjustment);;
  print (Text "Target median: 5");;
  print Blank.

(** The summary table over the students in the order given. *)
Definition print_table (first : string) (order : list string)
    (raw_avgs : gmap string Qc) (normalised : gmap string Z) : io unit :=
  print (Rule "-");;
  print (Text "SUMMARY TABLE");;
  print (Rule "-");;
  print (TableHeader first);;
  print (Rule "-");;
  io_for_each (λ _ '(num, student),
      raw ← eval (dict_getitem raw_avgs student);
      score ← eval (dict_getitem normalised student);
      print (TableRow num student raw score))
    tt (enumerate order 1);;
  print (Rule "-").

(** [sum(normalised.values()) / len(normalised) if normalised else 0] *)
Definition int_mean_of (normalised : gmap string Z) : Qc :=
  if decide (normalised = ∅) then 0%Qc
  else true_div (sum (dict_values normalised)) (size normalised).

(** [sorted_vals[len(sorted_vals) // 2] if sorted_vals else 0] *)
Definition median_of (sorted_vals : list Z) : result Z :=
  match sorted_vals with
  | [] => Ok 0%Z
  | _ => list_getitem sorted_vals (length sorted_vals / 2)
  end.

(** The group statistics printed under the table. *)
Definition print_statistics (normalised : gmap string Z) : io unit :=
  let int_mean := int_mean_of normalised in
  let sorted_vals := sorted (dict_values normalised) in
  median ← eval (median_of sorted_vals);
  print (StatMean int_mean);;
  print (StatMedian median);;
  print Blank.

(** One feedback block; [show] prints a non-empty comment list. The two
    reads of [comments[student]] go through the defaultdict, whose state is
    threaded. *)
Definition print_feedback (show : list string → io unit)
    (normalised : gmap string Z) (comments : defaultdict (list string))
    (student : string) : io (defaultdict (list string)) :=
  print Blank;;
  print (Text (">>> " +:+ student));;
  score ← eval (dict_getitem normalised student);
  print (ScoreLine score);;
  print Blank;;
  '(seen, comments) ← eval (dd_getitem comments student);
  comments ←
    match seen with
    | [] =>
        print (Text "    Peer Comments: (No comments provided)");;
        mret comments
    | _ =>
        print (Text "    Peer Comments:");;
        '(listed, comments) ← eval (dd_getitem comments student);
        show listed;;
        mret comments
    end;
  print Blank;;
  print (Rule "-");;
  mret comments.

Definition print_feedbacks (show : list string → io unit) (order : list string)
    (normalised : gmap string Z) (comments : defaultdict (list string))
    : io (defaultdict (list string)) :=
  print (Rule "=");;
  print (Text "INDIVIDUAL FEEDBACK");;
  print (Rule "=");;
  io_for_each (print_feedback show normalised) comments order.

(** The rows the csv reader yields, split as [parse_csv] does. *)
Definition parse_csv (rows : list (list string))
    : result (list string * list (list string)) :=
  headers ← list_getitem rows 0;
  Ok (headers, drop 1 rows).

(** [main] once [sys.argv[1]] names a file that opens, [rows] being what the
    csv reader yields for it; [report] is the script's [generate_report]
    with the default title. *)
Definition main_with
    (report : list (string * cols) → gmap string Qc → gmap string Z →
              defaultdict (list string) → Qc → Qc → io unit)
    (rows : list (list string)) : io unit :=
  match parse_csv rows with
  | Raise e => print (ErrorReading e);; sys_exit 1
  | Ok (headers, data) =>
      let '(students, name_col) := extract_students_and_columns headers in
      (match students with
       | [] =>
           print (Text "Error: Could not find any students in the CSV file.");;
           print (Text "Expected columns like 'Please rate the overall contribution from [Name]'");;
           sys_exit 1
       | _ => mret tt
       end);;
      (match name_col with
       | None => print (Text "Warning: Could not find respondent name column. Self-assessments won't be excluded.")
       | Some _ => mret tt
       end);;
      print (Detected (length students) (join ", " (student_keys students)));;
      print Blank;;
      '(raw_avgs, all_scores) ← eval (calculate_scores data students name_col);
      let '(normalised, group_mean, adjustment) :=
        normalize_scores raw_avgs all_scores default_target in
      comments ← eval (extract_comments data students name_col);
      report students raw_avgs normalised comments group_mean adjustment
  end.

(** ** pa_report.py *)

Module PaReport.

(** Students in the order of the header row, one comment per line. *)
Definition generate_report (students : list (string * cols))
    (raw_avgs : gmap string Qc) (normalised : gmap string Z)
    (comments : defaultdict (list string)) (group_mean adjustment : Qc)
    (title : string) : io unit :=
  let student_list := student_keys students in
  print_summary (length students) group_mean adjustment title;;
  print_table "#" student_list raw_avgs normalised;;
  print_statistics normalised;;
  print_feedbacks
    (λ listed, io_for_each (λ _ comment, print (Text ("    - " +:+ comment))) tt listed)
    student_list normalised comments;;
  mret tt.

Definition main (rows : list (list string)) : io unit :=
  main_with (λ students raw_avgs normalised comments group_mean adjustment,
      generate_report students raw_avgs normalised comments group_mean
        adjustment "PEER ASSESSMENT REPORT")
    rows.

End PaReport.

(** ** peer_assessment_report.py *)

Module PeerAssessmentReport.

(** Students by descending normalised score, comments joined on a line. *)
Definition generate_report (students : list (string * cols))
    (raw_avgs : gmap string Qc) (normalized : gmap string Z)
    (comments : defaultdict (list string)) (group_mean adjustment : Qc)
    (title : string) : io unit :=
  let sorted_students :=
    sorted_reverse (λ s, dict_get normalized s 0%Z) (student_keys students) in
  print_summary (length students) group_mean adjustment title;;
  print_table "Rank" sorted_students raw_avgs normalized;;
  print_statistics normalized;;
  print_feedbacks
    (λ listed, print (Text ("    " +:+ join " | " listed)))
    sorted_students normalized comments;;
  mret tt.

Definition main (rows : list (list string)) : io unit :=
  main_with (λ students raw_avgs normalized comments group_mean adjustment,
      generate_report students raw_avgs normalized comments group_mean
        adjustment "PEER ASSESSMENT REPORT")
    rows.

End PeerAssessmentReport.

(** ** Notions used to state the properties *)

(** The row reaches the identity column, so that reading the rater does not
    raise. *)
Definition row_ok (name_col : option nat) (row : list string) : Prop :=
  match name_col with
  | Some c => is_Some (row !! c)
  | None => True
  end.

Global Instance row_ok_dec name_col row : Decision (row_ok name_col row).
Proof. destruct name_col; simpl; apply _. Defined.

(** The identity cell of the row is the student's name. *)
Definition self_row (student : string) (name_col : option nat)
    (row : list string) : Prop :=
  ∃ c, name_col = Some c ∧ row !! c = Some student.

(** The rating cell of the row is there and [int] accepts it. *)
Definition parseable (c : cols) (row : list string) : Prop :=
  ∃ score, list_getitem row (overall c) ≫= int = Ok score.

(** The row is not the student's own and its justification cell is there and
    not blank. *)
Definition accepted_comment (student : string) (c : cols)
    (name_col : option nat) (row : list string) : Prop :=
  ¬ self_row student name_col row ∧
  ∃ cell, row !! justification c = Some cell ∧ strip cell ≠ EmptyString.

(** The list [scores] that the loop over the rows builds for one student. *)
Definition student_scores (data : list (list string)) (name_col : option nat)
    (entry : string * cols) : result (list Z) :=
  fst <$> for_each (score_row entry.1 entry.2 name_col) ([], []) data.

(** The rating a row gives to a student, if it gives one. *)
Definition rating_of (student : string) (c : cols) (name_col : option nat)
    (row : list string) : option Z :=
  if decide (name_col ≫= (row !!.) = Some student) then None
  else
    match list_getitem row (overall c) ≫= int with
    | Ok score => Some score
    | Raise _ => None
    end.

Definition ratings_of (student : string) (c : cols) (name_col : option nat)
    (data : list (list string)) : list Z :=
  omap (rating_of student c name_col) data.

(** The comment a row gives to a student, if it gives one. *)
Definition comment_of (student : string) (c : cols) (name_col : option nat)
    (row : list string) : option string :=
  if decide (name_col ≫= (row !!.) = Some student) then None
  else
    match row !! justification c with
    | Some cell => if decide (strip cell = EmptyString) then None else Some (strip cell)
    | None => None
    end.

Definition comments_of (student : string) (c : cols) (name_col : option nat)
    (data : list (list string)) : list string :=
  omap (comment_of student c name_col) data.

(** A defaultdict of lists after [cs] was appended, item by item, under [k]. *)
Definition dd_extend (d : defaultdict (list string)) (k : string)
    (cs : list string) : defaultdict (list string) :=
  match cs with
  | [] => d
  | _ => DefaultDict (default_factory d)
           (<[k := default [] (dd_items d !! k) ++ cs]> (dd_items d))
  end.
Arguments dd_extend : simpl never.

(** The raw averages and the pool that the loop over the students builds on
    top of [st], when every row reaches the identity column. *)
Definition scores_after (data : list (list string)) (name_col : option nat)
    (st : gmap string Qc * list Z) (students : list (string * cols))
    : gmap string Qc * list Z :=
  foldl (λ st entry,
      let scores := ratings_of entry.1 entry.2 name_col data in
      (<[entry.1 := average scores]> st.1, st.2 ++ scores))
    st students.

(** The comments dict that the loop over the students builds on top of [d],
    when every row reaches the identity column. *)
Definition comments_after (data : list (list string)) (name_col : option nat)
    (d : defaultdict (list string)) (students : list (string * cols))
    : defaultdict (list string) :=
  foldl (λ d entry,
      dd_extend d entry.1 (comments_of entry.1 entry.2 name_col data))
    d students.

(** Sum and mean of a list of rationals. *)
Definition sum_Qc (l : list Qc) : Qc := foldr Qcplus 0%Qc l.

Definition mean_Qc (l : list Qc) : Qc :=
  (sum_Qc l / Qc_of_Z (Z.of_nat (length l)))%Qc.

(** The mean over the students of raw average plus adjustment, before
    rounding and clamping. *)
Definition adjusted_mean (raw_avgs : gmap string Qc) (all_scores : list Z)
    (target : Qc) : Qc :=
  let adjustment := (normalize_scores raw_avgs all_scores target).2 in
  mean_Qc ((λ raw, raw + adjustment)%Qc <$> dict_values raw_avgs).

(** ** The lines of a report that completes *)

Definition summary_lines (n : nat) (group_mean adjustment : Qc) (title : string)
    : list line :=
  [Rule "="; Text title; Rule "="; Blank; TotalStudents n;
   GroupMeanRaw group_mean; Adjustment adjustment; Text "Target median: 5";
   Blank].

Definition table_lines (first : string) (order : list string)
    (raw_avgs : gmap string Qc) (normalised : gmap string Z) : list line :=
  [Rule "-"; Text "SUMMARY TABLE"; Rule "-"; TableHeader first; Rule "-"]
  ++ ((λ row : nat * string,
         TableRow row.1 row.2 (default 0%Qc (raw_avgs !! row.2))
           (default 0%Z (normalised !! row.2)))
        <$> enumerate order 1)
  ++ [Rule "-"].

Definition statistics_lines (normalised : gmap string Z) : list line :=
  let sorted_vals := sorted (dict_values normalised) in
  [StatMean (int_mean_of normalised);
   StatMedian (default 0%Z (sorted_vals !! (length sorted_vals / 2)));
   Blank].

Definition feedback_block (show_lines : list string → list line)
    (normalised : gmap string Z) (comments : defaultdict (list string))
    (student : string) : list line :=
  [Blank; Text (">>> " +:+ student);
   ScoreLine (default 0%Z (normalised !! student)); Blank]
  ++ match default [] (dd_items comments !! student) with
     | [] => [Text "    Peer Comments: (No comments provided)"]
     | listed => Text "    Peer Comments:" :: show_lines listed
     end
  ++ [Blank; Rule "-"].

Definition report_lines (first : string) (show_lines : list string → list line)
    (order : list string) (n : nat) (raw_avgs : gmap string Qc)
    (normalised : gmap string Z) (comments : defaultdict (list string))
    (group_mean adjustment : Qc) (title : string) : list line :=
  summary_lines n group_mean adjustment title
  ++ table_lines first order raw_avgs normalised
  ++ statistics_lines normalised
  ++ [Rule "="; Text "INDIVIDUAL FEEDBACK"; Rule "="]
  ++ concat (feedback_block show_lines normalised comments <$> order).

(** The student of a table row, for the lines that are one. *)
Definition table_row_student (l : line) : option string :=
  match l with
  | TableRow _ student _ _ => Some student
  | _ => None
  end.

(** ** A small survey, used to instantiate the properties

    Ann and Bob rate each other and themselves; the registry and the
    identity column are those of the header row. *)

Definition sample_headers : list string :=
  ["Select your name";
   "Please rate the overall contribution from Ann"; "Justification";
   "Please rate the overall contribution from Bob"; "Justification"].

Definition sample_data : list (list string) :=
  [["Ann"; "9"; "me"; "7"; "helpful"];
   ["Bob"; "8"; "led the work"; "8"; "me"]].

Definition sample_students : list (string * cols) :=
  [("Ann", Cols 1 2); ("Bob", Cols 3 4)].

(** * Properties *)

(** ** The error monad and the loops *)

Lemma for_each_cons {A S : Type} (body : S → A → result S) s x l :
  for_each body s (x :: l) = body s x ≫= λ s', for_each body s' l.
Proof. done. Qed.

Lemma for_each_app {A S : Type} (body : S → A → result S) s l1 l2 :
  for_each body s (l1 ++ l2) = for_each body s l1 ≫= λ s', for_each body s' l2.
Proof.
  revert s. induction l1 as [|x l1 IH]; intros s; simpl; [done|].
  destruct (body s x) as [s'|e]; simpl; [apply IH|done].
Qed.

Lemma list_getitem_Ok {A : Type} (l : list A) i x :
  list_getitem l i = Ok x ↔ l !! i = Some x.
Proof. unfold list_getitem. destruct (l !! i); split; congruence. Qed.

Lemma list_getitem_Raise {A : Type} (l : list A) i e :
  list_getitem l i = Raise e ↔ l !! i = None ∧ e = IndexError.
Proof.
  unfold list_getitem. destruct (l !! i); split; try congruence.
  - intros [??]; congruence.
  - intros [= <-]; done.
  - intros [_ ->]; done.
Qed.

Lemma int_Raise s e : int s = Raise e → e = ValueError.
Proof. unfold int. repeat case_match; congruence. Qed.

Lemma rater_of_ok name_col row :
  row_ok name_col row → rater_of row name_col = Ok (name_col ≫= (row !!.)).
Proof.
  destruct name_col as [c|]; simpl; [|done].
  intros [x Hx]. unfold list_getitem. rewrite Hx. done.
Qed.

Lemma rater_of_short name_col row :
  ¬ row_ok name_col row → rater_of row name_col = Raise IndexError.
Proof.
  destruct name_col as [c|]; simpl; [|tauto].
  intros Hno. unfold list_getitem. destruct (row !! c) eqn:E; [|done].
  destruct Hno; eauto.
Qed.

(** ** calculate_scores as a function of the accepted ratings *)

Lemma score_row_ok student c name_col st row :
  row_ok name_col row →
  score_row student c name_col st row =
    Ok (match rating_of student c name_col row with
        | Some score => (st.1 ++ [score], st.2 ++ [score])
        | None => st
        end).
Proof.
  intros Hok. unfold score_row, rating_of. rewrite (rater_of_ok _ _ Hok). simpl.
  destruct (decide (name_col ≫= (row !!.) = Some student)); [done|].
  destruct (list_getitem row (overall c)) as [cell|e] eqn:Hcell; simpl.
  - destruct (int cell) as [z|e] eqn:Hint; simpl; [done|].
    by rewrite (int_Raise _ _ Hint).
  - apply list_getitem_Raise in Hcell as [_ ->]. done.
Qed.

Lemma score_row_short student c name_col st row :
  ¬ row_ok name_col row →
  score_row student c name_col st row = Raise IndexError.
Proof. intros Hno. unfold score_row. by rewrite (rater_of_short _ _ Hno). Qed.

Lemma score_rows_ok student c name_col data : ∀ st,
  Forall (row_ok name_col) data →
  for_each (score_row student c name_col) st data =
    Ok (st.1 ++ ratings_of student c name_col data,
        st.2 ++ ratings_of student c name_col data).
Proof.
  induction data as [|row data IH]; intros [sc al] Hall; simpl.
  - by rewrite !app_nil_r.
  - inversion_clear Hall as [|?? Hrow Hrest].
    rewrite (score_row_ok _ _ _ _ _ Hrow). simpl.
    unfold ratings_of in *. simpl.
    destruct (rating_of student c name_col row) as [z|]; simpl.
    + rewrite (IH _ Hrest). simpl. by rewrite <- !app_assoc.
    + by rewrite (IH _ Hrest).
Qed.

Lemma score_rows_short student c name_col data : ∀ st,
  ¬ Forall (row_ok name_col) data →
  for_each (score_row student c name_col) st data = Raise IndexError.
Proof.
  induction data as [|row data IH]; intros st Hno; simpl.
  - destruct Hno. constructor.
  - destruct (decide (row_ok name_col row)) as [Hrow|Hrow].
    + rewrite (score_row_ok _ _ _ _ _ Hrow). simpl. apply IH.
      intros Hrest. apply Hno. by constructor.
    + by rewrite (score_row_short _ _ _ _ _ Hrow).
Qed.

Lemma score_student_ok data name_col st entry :
  Forall (row_ok name_col) data →
  score_student data name_col st entry =
    Ok (<[entry.1 := average (ratings_of entry.1 entry.2 name_col data)]> st.1,
        st.2 ++ ratings_of entry.1 entry.2 name_col data).
Proof.
  intros Hall. unfold score_student.
  by rewrite (score_rows_ok _ _ _ _ _ Hall).
Qed.

Lemma score_student_short data name_col st entry :
  ¬ Forall (row_ok name_col) data →
  score_student data name_col st entry = Raise IndexError.
Proof.
  intros Hno. unfold score_student.
  by rewrite (score_rows_short _ _ _ _ _ Hno).
Qed.

Lemma score_students_ok data name_col students : ∀ st,
  Forall (row_ok name_col) data →
  for_each (score_student data name_col) st students =
    Ok (scores_after data name_col st students).
Proof.
  induction students as [|entry students IH]; intros st Hall; [done|].
  rewrite for_each_cons, (score_student_ok _ _ _ _ Hall).
  apply (IH _ Hall).
Qed.

Lemma score_students_short data name_col students st :
  students ≠ [] →
  ¬ Forall (row_ok name_col) data →
  for_each (score_student data name_col) st students = Raise IndexError.
Proof.
  destruct students as [|entry students]; [done|]. intros _ Hno.
  by rewrite for_each_cons, (score_student_short _ _ _ _ Hno).
Qed.

Lemma calculate_scores_ok data students name_col :
  Forall (row_ok name_col) data →
  calculate_scores data students name_col =
    Ok (scores_after data name_col (∅, []) students).
Proof. apply score_students_ok. Qed.

Lemma calculate_scores_short data students name_col :
  students ≠ [] →
  ¬ Forall (row_ok name_col) data →
  calculate_scores data students name_col = Raise IndexError.
Proof. apply score_students_short. Qed.

Lemma calculate_scores_empty data name_col :
  calculate_scores data [] name_col = Ok (∅, []).
Proof. done. Qed.

(** ** extract_comments as a function of the accepted comments *)

Lemma dd_extend_factory d k cs :
  default_factory (dd_extend d k cs) = default_factory d.
Proof. by destruct cs. Qed.

Lemma dd_append_list (d : defaultdict (list string)) k x :
  default_factory d = Some [] →
  dd_append d k x = Ok (dd_extend d k [x]).
Proof.
  intros Hf. unfold dd_append, dd_getitem, dd_extend.
  destruct (dd_items d !! k) as [l|] eqn:Hk; simpl.
  - done.
  - rewrite Hf. simpl. by rewrite insert_insert_eq.
Qed.

Lemma dd_extend_cons d k x cs :
  dd_extend (dd_extend d k [x]) k cs = dd_extend d k (x :: cs).
Proof.
  destruct cs as [|y cs]; [done|]. unfold dd_extend. simpl.
  rewrite lookup_insert_eq, insert_insert_eq. simpl.
  by rewrite <- app_assoc.
Qed.

Lemma comment_row_ok student c name_col d row :
  row_ok name_col row →
  default_factory d = Some [] →
  comment_row student c name_col d row =
    Ok (match comment_of student c name_col row with
        | Some comment => dd_extend d student [comment]
        | None => d
        end).
Proof.
  intros Hok Hf. unfold comment_row, comment_of.
  rewrite (rater_of_ok _ _ Hok). simpl.
  destruct (decide (name_col ≫= (row !!.) = Some student)); [done|].
  unfold list_getitem.
  destruct (row !! justification c) as [cell|]; simpl; [|done].
  destruct (decide (strip cell = EmptyString)); [done|].
  by rewrite (dd_append_list _ _ _ Hf).
Qed.

Lemma comment_row_short student c name_col d row :
  ¬ row_ok name_col row →
  comment_row student c name_col d row = Raise IndexError.
Proof. intros Hno. unfold comment_row. by rewrite (rater_of_short _ _ Hno). Qed.

Lemma comment_rows_ok student c name_col data : ∀ d,
  Forall (row_ok name_col) data →
  default_factory d = Some [] →
  for_each (comment_row student c name_col) d data =
    Ok (dd_extend d student (comments_of student c name_col data)).
Proof.
  induction data as [|row data IH]; intros d Hall Hf; [done|].
  inversion_clear Hall as [|?? Hrow Hrest].
  rewrite for_each_cons, (comment_row_ok _ _ _ _ _ Hrow Hf).
  unfold comments_of in *. simpl.
  destruct (comment_of student c name_col row) as [x|]; simpl.
  - rewrite (IH _ Hrest); [|by rewrite dd_extend_factory].
    by rewrite dd_extend_cons.
  - by rewrite (IH _ Hrest Hf).
Qed.

Lemma comment_rows_short student c name_col data : ∀ d,
  default_factory d = Some [] →
  ¬ Forall (row_ok name_col) data →
  for_each (comment_row student c name_col) d data = Raise IndexError.
Proof.
  induction data as [|row data IH]; intros d Hf Hno.
  - destruct Hno. constructor.
  - rewrite for_each_cons.
    destruct (decide (row_ok name_col row)) as [Hrow|Hrow].
    + rewrite (comment_row_ok _ _ _ _ _ Hrow Hf). simpl.
      assert (¬ Forall (row_ok name_col) data) as Hrest.
      { intros Hrest. apply Hno. by constructor. }
      destruct (comment_of student c name_col row); apply IH;
        rewrite ?dd_extend_factory; done.
    + by rewrite (comment_row_short _ _ _ _ _ Hrow).
Qed.

Lemma comments_after_factory data name_col students : ∀ d,
  default_factory (comments_after data name_col d students) = default_factory d.
Proof.
  induction students as [|entry students IH]; intros d; [done|].
  unfold comments_after in *. cbn [foldl]. rewrite IH. apply dd_extend_factory.
Qed.

Lemma comment_student_ok data name_col d entry :
  Forall (row_ok name_col) data →
  default_factory d = Some [] →
  comment_student data name_col d entry =
    Ok (dd_extend d entry.1 (comments_of entry.1 entry.2 name_col data)).
Proof. apply comment_rows_ok. Qed.

Lemma comment_student_short data name_col d entry :
  default_factory d = Some [] →
  ¬ Forall (row_ok name_col) data →
  comment_student data name_col d entry = Raise IndexError.
Proof. apply comment_rows_short. Qed.

Lemma comment_students_ok data name_col students : ∀ d,
  Forall (row_ok name_col) data →
  default_factory d = Some [] →
  for_each (comment_student data name_col) d students =
    Ok (comments_after data name_col d students).
Proof.
  induction students as [|entry students IH]; intros d Hall Hf; [done|].
  rewrite for_each_cons, (comment_student_ok _ _ _ _ Hall Hf).
  apply (IH _ Hall). by rewrite dd_extend_factory.
Qed.

Lemma extract_comments_ok data students name_col :
  Forall (row_ok name_col) data →
  extract_comments data students name_col =
    Ok (comments_after data name_col (DefaultDict (Some []) ∅) students).
Proof. intros Hall. by apply comment_students_ok. Qed.

Lemma extract_comments_short data students name_col :
  students ≠ [] →
  ¬ Forall (row_ok name_col) data →
  extract_comments data students name_col = Raise IndexError.
Proof.
  destruct students as [|entry students]; [done|]. intros _ Hno.
  unfold extract_comments.
  rewrite for_each_cons, comment_student_short; done.
Qed.

Lemma extract_comments_empty data name_col :
  extract_comments data [] name_col = Ok (DefaultDict (Some []) ∅).
Proof. done. Qed.

(** ** What the two mappings hold for one name *)

Lemma scores_after_lookup data name_col N students : ∀ st,
  (scores_after data name_col st students).1 !! N =
    match last (filter (λ e, e.1 = N) students) with
    | Some e => Some (average (ratings_of N e.2 name_col data))
    | None => st.1 !! N
    end.
Proof.
  induction students as [|[s c] students IH]; intros st; [done|].
  unfold scores_after in *. cbn [foldl]. rewrite IH. cbn [fst snd].
  destruct (decide (s = N)) as [->|Hne].
  - rewrite filter_cons_True by done. rewrite last_cons.
    destruct (last (filter (λ e, e.1 = N) students)); [done|].
    by rewrite lookup_insert_eq.
  - rewrite filter_cons_False by done.
    destruct (last (filter (λ e, e.1 = N) students)); [done|].
    by rewrite lookup_insert_ne.
Qed.

Lemma scores_after_pool data name_col students : ∀ st,
  (scores_after data name_col st students).2 =
    st.2 ++ concat ((λ e, ratings_of e.1 e.2 name_col data) <$> students).
Proof.
  induction students as [|[s c] students IH]; intros st.
  - simpl. by rewrite app_nil_r.
  - unfold scores_after in *. cbn [foldl]. rewrite IH. cbn [fst snd].
    rewrite fmap_cons. cbn [concat fst snd]. by rewrite <- app_assoc.
Qed.

Lemma last_filter_key (N : string) (students : list (string * cols)) e :
  last (filter (λ e, e.1 = N) students) = Some e → e.1 = N ∧ e ∈ students.
Proof.
  intros Hlast. apply last_Some_elem_of in Hlast.
  apply list_elem_of_filter in Hlast. tauto.
Qed.

Lemma filter_key_nil (N : string) (students : list (string * cols)) :
  filter (λ e, e.1 = N) students = [] ↔ N ∉ students.*1.
Proof.
  induction students as [|[s c] students IH]; simpl.
  - split; [intros _; apply not_elem_of_nil|done].
  - rewrite not_elem_of_cons. destruct (decide (s = N)) as [->|Hne].
    + rewrite filter_cons_True by done. split; [done|]. intros [? _]. done.
    + rewrite filter_cons_False by done. rewrite IH. split; [|tauto].
      intros Hnot. split; [congruence|done].
Qed.

Lemma last_filter_none (N : string) (students : list (string * cols)) :
  last (filter (λ e, e.1 = N) students) = None ↔ N ∉ students.*1.
Proof. rewrite last_None. apply filter_key_nil. Qed.

Lemma comments_after_lookup data name_col N students : ∀ d,
  dd_items (comments_after data name_col d students) !! N =
    match concat ((λ e, comments_of e.1 e.2 name_col data)
                    <$> filter (λ e, e.1 = N) students) with
    | [] => dd_items d !! N
    | cs => Some (default [] (dd_items d !! N) ++ cs)
    end.
Proof.
  induction students as [|[s c] students IH]; intros d; [done|].
  unfold comments_after in *. cbn [foldl]. rewrite IH. cbn [fst snd].
  destruct (decide (s = N)) as [->|Hne].
  - rewrite filter_cons_True by done. rewrite fmap_cons. cbn [concat fst snd].
    destruct (comments_of N c name_col data) as [|x cs] eqn:Hcs; [done|].
    unfold dd_extend. cbn [dd_items]. rewrite lookup_insert_eq. cbn [default].
    destruct (concat _) as [|y rest]; simpl.
    + by rewrite app_nil_r.
    + by rewrite <- app_assoc.
  - rewrite filter_cons_False by done.
    assert (dd_items (dd_extend d s (comments_of s c name_col data)) !! N
            = dd_items d !! N) as ->; [|done].
    unfold dd_extend. destruct (comments_of s c name_col data); [done|].
    cbn [dd_items]. by rewrite lookup_insert_ne.
Qed.

(** The derived notions in terms of the cells. *)

Lemma self_row_bind student name_col row :
  self_row student name_col row ↔ name_col ≫= (row !!.) = Some student.
Proof.
  unfold self_row. destruct name_col as [c|]; simpl.
  - split; [intros (? & [= <-] & ?); done|eauto].
  - split; [intros (? & ? & _); done|done].
Qed.

Lemma rating_of_None student c name_col row :
  rating_of student c name_col row = None ↔
    self_row student name_col row ∨ ¬ parseable c row.
Proof.
  rewrite self_row_bind. unfold rating_of, parseable.
  destruct (decide (name_col ≫= (row !!.) = Some student)) as [Hs|Hs].
  - split; [by left|done].
  - destruct (list_getitem row (overall c) ≫= int) as [z|e].
    + split; [done|]. intros [?|Hno]; [done|]. destruct Hno. eauto.
    + split; [|done]. intros _. right. intros [? ?]. done.
Qed.

Lemma comment_of_Some student c name_col row comment :
  comment_of student c name_col row = Some comment ↔
    ¬ self_row student name_col row ∧
    ∃ cell, row !! justification c = Some cell ∧
            strip cell ≠ EmptyString ∧ comment = strip cell.
Proof.
  rewrite self_row_bind. unfold comment_of.
  destruct (decide (name_col ≫= (row !!.) = Some student)) as [Hs|Hs].
  - split; [done|]. intros [? _]. done.
  - destruct (row !! justification c) as [cell|].
    + destruct (decide (strip cell = EmptyString)) as [He|He].
      * split; [done|]. intros (_ & ? & [= <-] & ? & _). done.
      * split.
        -- intros [= <-]. eauto.
        -- intros (_ & ? & [= <-] & _ & ->). done.
    + split; [done|]. intros (_ & ? & ? & _). done.
Qed.

Lemma comment_of_None student c name_col row :
  comment_of student c name_col row = None ↔
    ¬ accepted_comment student c name_col row.
Proof.
  split.
  - intros Hnone (Hself & cell & Hcell & Hne).
    assert (comment_of student c name_col row = Some (strip cell)) as Hsome.
    { apply comment_of_Some. eauto. }
    congruence.
  - intros Hnot. destruct (comment_of student c name_col row) eqn:Hco; [|done].
    apply comment_of_Some in Hco as (Hself & cell & Hcell & Hne & _).
    destruct Hnot. split; eauto.
Qed.

Lemma student_scores_ok data name_col entry :
  Forall (row_ok name_col) data →
  student_scores data name_col entry
    = Ok (ratings_of entry.1 entry.2 name_col data).
Proof.
  intros Hall. unfold student_scores.
  by rewrite (score_rows_ok _ _ _ _ _ Hall).
Qed.

Lemma omap_nil_iff {A B : Type} (f : A → option B) (l : list A) :
  omap f l = [] ↔ ∀ x, x ∈ l → f x = None.
Proof.
  induction l as [|x l IH]; simpl.
  - split; [intros _ ? ?%elem_of_nil; done|done].
  - destruct (f x) eqn:Hx.
    + split; [done|]. intros Hall. specialize (Hall x (list_elem_of_here _ _)).
      congruence.
    + rewrite IH. split.
      * intros Hall y [->|?]%elem_of_cons; auto.
      * intros Hall y ?. apply Hall. by right.
Qed.

Lemma ratings_of_nil student c name_col data :
  ratings_of student c name_col data = [] ↔
    ∀ row, row ∈ data → self_row student name_col row ∨ ¬ parseable c row.
Proof.
  unfold ratings_of. rewrite omap_nil_iff.
  split; intros Hall row Hin; apply rating_of_None; auto.
Qed.

Lemma comments_of_nil student c name_col data :
  comments_of student c name_col data = [] ↔
    ∀ row, row ∈ data → comment_of student c name_col row = None.
Proof. apply omap_nil_iff. Qed.

(** A self row changes neither the ratings nor the comments of its student. *)

Lemma rating_of_self student c id_col row :
  row !! id_col = Some student → rating_of student c (Some id_col) row = None.
Proof. intros Hrow. apply rating_of_None. left. exists id_col. done. Qed.

Lemma comment_of_self student c id_col row :
  row !! id_col = Some student → comment_of student c (Some id_col) row = None.
Proof.
  intros Hrow. unfold comment_of. simpl. by rewrite decide_True.
Qed.

Lemma ratings_of_drop_self student c id_col data1 row data2 :
  row !! id_col = Some student →
  ratings_of student c (Some id_col) (data1 ++ row :: data2) =
    ratings_of student c (Some id_col) (data1 ++ data2).
Proof.
  intros Hrow. unfold ratings_of. rewrite !omap_app. simpl.
  by rewrite (rating_of_self _ _ _ _ Hrow).
Qed.

Lemma comments_of_drop_self student c id_col data1 row data2 :
  row !! id_col = Some student →
  comments_of student c (Some id_col) (data1 ++ row :: data2) =
    comments_of student c (Some id_col) (data1 ++ data2).
Proof.
  intros Hrow. unfold comments_of. rewrite !omap_app. simpl.
  by rewrite (comment_of_self _ _ _ _ Hrow).
Qed.

Lemma rows_ok_drop name_col data1 row data2 :
  row_ok name_col row →
  Forall (row_ok name_col) (data1 ++ row :: data2) ↔
    Forall (row_ok name_col) (data1 ++ data2).
Proof.
  intros Hrow. rewrite !Forall_app, Forall_cons. tauto.
Qed.


(** ** Rationals *)

Lemma this_Qc_of_Z z : this (Qc_of_Z z) = inject_Z z.
Proof. done. Qed.

Lemma this_plus (a b : Qc) : (this (a + b)%Qc == this a + this b)%Q.
Proof. apply Qred_correct. Qed.

Lemma this_minus (a b : Qc) : (this (a - b)%Qc == this a - this b)%Q.
Proof.
  unfold Qcminus. rewrite this_plus. unfold Qcopp. simpl.
  rewrite Qred_correct. reflexivity.
Qed.

Lemma this_half : (this half == 1 # 2)%Q.
Proof. done. Qed.

(** [round] returns an integer at distance at most one half. *)
Lemma round_nearest (x : Qc) :
  (Qc_of_Z (round x) - half ≤ x ∧ x ≤ Qc_of_Z (round x) + half)%Qc.
Proof.
  pose proof (Qfloor_le x) as Hlo. pose proof (Qlt_floor x) as Hhi.
  rewrite inject_Z_plus in Hhi. change (inject_Z 1) with 1%Q in Hhi.
  assert (∀ z : Z,
    (inject_Z z - (1 # 2) <= x)%Q → (x <= inject_Z z + (1 # 2))%Q →
    (Qc_of_Z z - half ≤ x ∧ x ≤ Qc_of_Z z + half)%Qc) as Hconv.
  { intros z H1 H2. unfold Qcle.
    rewrite this_minus, this_plus, this_Qc_of_Z, this_half. done. }
  unfold round.
  destruct (decide (x - Qc_of_Z (Qfloor x) < half)%Qc) as [Hlt|Hge].
  - unfold Qclt in Hlt. rewrite this_minus, this_Qc_of_Z, this_half in Hlt.
    apply Hconv; lra.
  - destruct (decide (half < x - Qc_of_Z (Qfloor x))%Qc) as [Hgt|Hle].
    + unfold Qclt in Hgt. rewrite this_minus, this_Qc_of_Z, this_half in Hgt.
      apply Hconv; rewrite inject_Z_plus; change (inject_Z 1) with 1%Q; lra.
    + apply Qcnot_lt_le in Hge, Hle. unfold Qcle in Hge, Hle.
      rewrite this_minus, this_Qc_of_Z, this_half in Hge, Hle.
      destruct (Z.even (Qfloor x)); apply Hconv; rewrite ?inject_Z_plus;
        change (inject_Z 1) with 1%Q; lra.
Qed.

Lemma clamp_range z : (0 ≤ clamp z ≤ 9)%Z.
Proof. unfold clamp. lia. Qed.

(** ** normalize_scores *)

Lemma normalise_fold adjustment (raw_avgs : gmap string Qc) :
  map_fold (normalise_one adjustment) ∅ raw_avgs =
    (λ raw, clamp (round (raw + adjustment)%Qc)) <$> raw_avgs.
Proof.
  apply (map_fold_weak_ind (λ r m,
    r = (λ raw, clamp (round (raw + adjustment)%Qc)) <$> m)).
  - by rewrite fmap_empty.
  - intros student raw m r _ ->. unfold normalise_one. by rewrite fmap_insert.
Qed.

Lemma normalize_scores_cons raw_avgs score all_scores target :
  let group_mean := true_div (sum (score :: all_scores)) (length (score :: all_scores)) in
  normalize_scores raw_avgs (score :: all_scores) target =
    ((λ raw, clamp (round (raw + (target - group_mean))%Qc)) <$> raw_avgs,
     group_mean, (target - group_mean)%Qc).
Proof. intros group_mean. unfold normalize_scores. by rewrite normalise_fold. Qed.

(** C1. Every score of the mapping that [normalize_scores] returns is an
    integer between 0 and 9: it is the student's raw average plus the
    adjustment, rounded to an integer at distance at most one half and then
    clamped to 0 below and 9 above. *)
Theorem normalized_in_range
    (raw_avgs : gmap string Qc) (all_scores : list Z) (target : Qc)
    (student : string) (score : Z) :
  (normalize_scores raw_avgs all_scores target).1.1 !! student = Some score →
  (0 ≤ score ≤ 9)%Z ∧
  ∃ raw, raw_avgs !! student = Some raw ∧
    let x := (raw + (target - true_div (sum all_scores) (length all_scores)))%Qc in
    score = Z.max 0 (Z.min 9 (round x)) ∧
    (Qc_of_Z (round x) - half ≤ x ∧ x ≤ Qc_of_Z (round x) + half)%Qc.
Proof.
  destruct all_scores as [|s all_scores]; [done|].
  rewrite normalize_scores_cons. cbn [fst]. rewrite lookup_fmap.
  destruct (raw_avgs !! student) as [raw|] eqn:Hraw; [|done].
  intros [= <-]. split; [apply clamp_range|].
  exists raw. split; [done|]. split; [done|]. apply round_nearest.
Qed.

(** C7. On an empty score pool [normalize_scores] returns the empty mapping,
    group mean 0 and adjustment 0, whatever the raw averages and the target
    are. *)
Theorem normalize_scores_empty_pool (raw_avgs : gmap string Qc) (target : Qc) :
  normalize_scores raw_avgs [] target = (∅, 0%Qc, 0%Qc).
Proof. done. Qed.

(** C9. On a non-empty score pool the mapping that [normalize_scores]
    returns has the keys of the raw-average mapping and no others. *)
Theorem normalized_same_keys
    (raw_avgs : gmap string Qc) (all_scores : list Z) (target : Qc) :
  all_scores ≠ [] →
  dom (normalize_scores raw_avgs all_scores target).1.1 = dom raw_avgs.
Proof.
  destruct all_scores as [|s all_scores]; [done|]. intros _.
  rewrite normalize_scores_cons. cbn [fst]. apply dom_fmap_L.
Qed.

(** ** The median printed by generate_report *)

Lemma sorted_Sorted (l : list Z) : Sorted Z.le (sorted l).
Proof. apply (Sorted_merge_sort Z.le). Qed.

Lemma sorted_Permutation (l : list Z) : sorted l ≡ₚ l.
Proof. apply (merge_sort_Permutation Z.le). Qed.

Lemma half_length_lt {A : Type} (l : list A) : l ≠ [] → length l / 2 < length l.
Proof.
  intros Hne. destruct l as [|x l]; [done|].
  apply Nat.div_lt; simpl; lia.
Qed.

Lemma median_of_spec (sorted_vals : list Z) :
  median_of sorted_vals = Ok (default 0%Z (sorted_vals !! (length sorted_vals / 2))).
Proof.
  destruct sorted_vals as [|x l]; [done|].
  unfold median_of, list_getitem.
  destruct (lookup_lt_is_Some_2 (x :: l) (length (x :: l) / 2)) as [m Hm].
  { by apply half_length_lt. }
  by rewrite Hm.
Qed.

(** C6, as the code has it. The median that [generate_report] prints under
    the table is the element at index [count // 2] of the sorted normalised
    scores, hence one of them, and for an even count the upper of the two
    middle elements; it is 0 when there are no scores. *)
Theorem median_is_upper_middle (normalised : gmap string Z) :
  let sorted_vals := sorted (dict_values normalised) in
  ∃ median,
    print_statistics normalised =
      IO [StatMean (int_mean_of normalised); StatMedian median; Blank] (Ok tt)
    ∧ Sorted Z.le sorted_vals
    ∧ sorted_vals ≡ₚ dict_values normalised
    ∧ (sorted_vals = [] ∧ median = 0%Z
       ∨ sorted_vals !! (length sorted_vals / 2) = Some median
         ∧ median ∈ sorted_vals).
Proof.
  intros sorted_vals.
  exists (default 0%Z (sorted_vals !! (length sorted_vals / 2))).
  split; [|split; [apply sorted_Sorted|split; [apply sorted_Permutation|]]].
  - unfold print_statistics. fold sorted_vals. by rewrite median_of_spec.
  - destruct (decide (sorted_vals = [])) as [Hnil|Hne].
    + left. by rewrite Hnil.
    + right.
      destruct (lookup_lt_is_Some_2 sorted_vals (length sorted_vals / 2))
        as [m Hm]; [by apply half_length_lt|].
      rewrite Hm. split; [done|]. by eapply list_elem_of_lookup_2.
Qed.

(** C6, as the spec has it, fails: with the two scores 3 and 7 the printed
    median is 7, the element at index [count // 2 - 1] being 3. *)
Lemma median_not_lower_middle :
  let normalised : gmap string Z := {[ "Ann" := 3%Z; "Bob" := 7%Z ]} in
  let sorted_vals := sorted (dict_values normalised) in
  sorted_vals = [3%Z; 7%Z]
  ∧ output (print_statistics normalised) !! 1 = Some (StatMedian 7)
  ∧ sorted_vals !! (length sorted_vals / 2 - 1) = Some 3%Z.
Proof. vm_compute. done. Qed.

(** ** Rows that do not reach the identity column *)

(** C3 fails on the code: the rater is read outside the [try] block, so a
    row that stops before the identity column (here the empty row that the
    csv reader yields for a blank line) raises [IndexError] in
    [calculate_scores] and in [extract_comments], and the run of either
    script ends with it. *)
Theorem short_row_aborts :
  let headers := ["Select your name";
                  "Please rate the overall contribution from Alice";
                  "Justification"] in
  let data := [["Bob"; "8"; "great work"]; []] in
  extract_students_and_columns headers = ([("Alice", Cols 1 2)], Some 0)
  ∧ calculate_scores data [("Alice", Cols 1 2)] (Some 0) = Raise IndexError
  ∧ extract_comments data [("Alice", Cols 1 2)] (Some 0) = Raise IndexError
  ∧ outcome (PaReport.main (headers :: data)) = Raise IndexError
  ∧ outcome (PeerAssessmentReport.main (headers :: data)) = Raise IndexError.
Proof. vm_compute. done. Qed.

(** A row that reaches the identity column but not the rating or the
    justification column is skipped: the two loops go on with their state
    unchanged. *)
Lemma ragged_row_skipped student c id_col row st d :
  is_Some (row !! id_col) →
  row !! overall c = None →
  row !! justification c = None →
  default_factory d = Some [] →
  score_row student c (Some id_col) st row = Ok st
  ∧ comment_row student c (Some id_col) d row = Ok d.
Proof.
  intros Hid Ho Hj Hf.
  rewrite score_row_ok, comment_row_ok by done.
  unfold rating_of, comment_of, list_getitem. rewrite Ho, Hj. simpl.
  by destruct (decide _).
Qed.

(** ** The report on an empty score pool *)

Lemma print_table_no_scores first order raw_avgs :
  order ≠ [] →
  outcome (print_table first order raw_avgs ∅) = Raise KeyError.
Proof.
  destruct order as [|student order]; [done|]. intros _.
  unfold print_table. simpl.
  unfold dict_getitem. rewrite lookup_empty.
  by destruct (raw_avgs !! student).
Qed.

Lemma sorted_reverse_not_nil {A : Type} (key : A → Z) (l : list A) :
  l ≠ [] → sorted_reverse key l ≠ [].
Proof.
  destruct l as [|x l]; [done|]. intros _. unfold sorted_reverse. simpl.
  destruct (foldr (insert_desc key) [] l) as [|y l']; simpl; [done|].
  by destruct (decide _).
Qed.

Lemma io_bind_outcome_raise {A B : Type} (m : io A) (f : A → io B) e :
  outcome m = Raise e → outcome (m ≫= f) = Raise e.
Proof. intros H. unfold mbind, io_bind. by rewrite H. Qed.

Lemma io_bind_outcome_ok {A B : Type} (m : io A) (f : A → io B) a :
  outcome m = Ok a → outcome (m ≫= f) = outcome (f a).
Proof. intros H. unfold mbind, io_bind. by rewrite H. Qed.

Lemma print_summary_ok n group_mean adjustment title :
  outcome (print_summary n group_mean adjustment title) = Ok tt.
Proof. done. Qed.

(** Both scripts: with at least one student and no normalised score the
    report stops with [KeyError] at the first row of the summary table. *)
Lemma generate_report_no_scores students raw_avgs comments group_mean adjustment title :
  students ≠ [] →
  outcome (PaReport.generate_report students raw_avgs ∅ comments group_mean
             adjustment title) = Raise KeyError
  ∧ outcome (PeerAssessmentReport.generate_report students raw_avgs ∅ comments
               group_mean adjustment title) = Raise KeyError.
Proof.
  intros Hne.
  assert (student_keys students ≠ []) as Hkeys.
  { unfold student_keys. by destruct students. }
  split.
  - unfold PaReport.generate_report.
    rewrite (io_bind_outcome_ok _ _ tt) by apply print_summary_ok.
    apply io_bind_outcome_raise. by apply print_table_no_scores.
  - unfold PeerAssessmentReport.generate_report.
    rewrite (io_bind_outcome_ok _ _ tt) by apply print_summary_ok.
    apply io_bind_outcome_raise. apply print_table_no_scores.
    by apply sorted_reverse_not_nil.
Qed.

(** C4 fails on the code: with one detected student and no parseable rating
    the pool is empty, [normalize_scores] returns the empty mapping, and
    [generate_report] of either script raises [KeyError] on reading the
    student's normalised score for the first table row; the last line
    printed is the rule under the table header. *)
Theorem empty_pool_report_crashes :
  let headers := ["Select your name";
                  "Please rate the overall contribution from Alice";
                  "Justification"] in
  let data := [["Bob"; "n/a"; "was away"]] in
  extract_students_and_columns headers = ([("Alice", Cols 1 2)], Some 0)
  ∧ (snd <$> calculate_scores data [("Alice", Cols 1 2)] (Some 0)) = Ok []
  ∧ outcome (PaReport.main (headers :: data)) = Raise KeyError
  ∧ outcome (PeerAssessmentReport.main (headers :: data)) = Raise KeyError
  ∧ drop 11 (output (PaReport.main (headers :: data)))
      = [Rule "-"; Text "SUMMARY TABLE"; Rule "-"; TableHeader "#"; Rule "-"].
Proof. vm_compute. done. Qed.

(** ** Students without ratings or comments *)

Lemma calculate_scores_Ok data students name_col r :
  calculate_scores data students name_col = Ok r →
  r = scores_after data name_col (∅, []) students.
Proof.
  destruct students as [|entry students].
  - by intros [= <-].
  - destruct (decide (Forall (row_ok name_col) data)) as [Hall|Hno].
    + rewrite (calculate_scores_ok _ _ _ Hall). by intros [= <-].
    + rewrite calculate_scores_short; [intros ?; discriminate|done|done].
Qed.

Lemma extract_comments_Ok data students name_col comments :
  extract_comments data students name_col = Ok comments →
  comments = comments_after data name_col (DefaultDict (Some []) ∅) students.
Proof.
  destruct students as [|entry students].
  - by intros [= <-].
  - destruct (decide (Forall (row_ok name_col) data)) as [Hall|Hno].
    + rewrite (extract_comments_ok _ _ _ Hall). by intros [= <-].
    + rewrite extract_comments_short; [intros ?; discriminate|done|done].
Qed.

Lemma concat_fmap_nil {A B : Type} (f : A → list B) (l : list A) :
  concat (f <$> l) = [] ↔ ∀ x, x ∈ l → f x = [].
Proof.
  induction l as [|x l IH]; simpl.
  - split; [intros _ ? ?%elem_of_nil; done|done].
  - split.
    + intros [Hx Hl]%app_eq_nil y [->|Hy]%elem_of_cons; [done|].
      by apply IH.
    + intros Hall. rewrite (Hall x) by left. simpl.
      apply IH. intros y Hy. apply Hall. by right.
Qed.

(** The comments stored under a name are the comments of its registry
    entries, and the name is a key only if there is one. *)
Lemma extract_comments_lookup data students name_col comments N :
  extract_comments data students name_col = Ok comments →
  default_factory comments = Some []
  ∧ dd_items comments !! N =
      match concat ((λ e, comments_of e.1 e.2 name_col data)
                      <$> filter (λ e, e.1 = N) students) with
      | [] => None
      | cs => Some cs
      end.
Proof.
  intros ->%extract_comments_Ok. split.
  - by rewrite comments_after_factory.
  - rewrite comments_after_lookup. cbn [dd_items]. by rewrite lookup_empty.
Qed.

Lemma no_comment_entries data students name_col N :
  concat ((λ e, comments_of e.1 e.2 name_col data)
            <$> filter (λ e, e.1 = N) students) = [] ↔
  ∀ c row, (N, c) ∈ students → row ∈ data →
    comment_of N c name_col row = None.
Proof.
  rewrite concat_fmap_nil. split.
  - intros Hall c row Hreg Hrow.
    specialize (Hall (N, c)). cbn [fst snd] in Hall.
    eapply comments_of_nil; [|done]. apply Hall.
    by apply list_elem_of_filter.
  - intros Hall [s c] [Hs Hin]%list_elem_of_filter. cbn [fst snd] in *. subst s.
    apply comments_of_nil. intros row Hrow. by eapply Hall.
Qed.

Lemma concat_fmap_not_nil {A B : Type} (f : A → list B) (l : list A) :
  concat (f <$> l) ≠ [] → ∃ x, x ∈ l ∧ f x ≠ [].
Proof.
  induction l as [|x l IH]; simpl; [done|]. intros Hne.
  destruct (f x) as [|y ys] eqn:Hx.
  - destruct (IH Hne) as (z & Hz & Hfz). exists z. split; [by right|done].
  - exists x. split; [by left|]. by rewrite Hx.
Qed.

Lemma omap_not_nil {A B : Type} (f : A → option B) (l : list A) :
  omap f l ≠ [] → ∃ x y, x ∈ l ∧ f x = Some y.
Proof.
  induction l as [|x l IH]; simpl; [done|]. intros Hne.
  destruct (f x) as [y|] eqn:Hx.
  - exists x, y. split; [by left|done].
  - destruct (IH Hne) as (z & y & Hz & Hfz). exists z, y. split; [by right|done].
Qed.

Lemma some_comment_entry data students name_col N :
  concat ((λ e, comments_of e.1 e.2 name_col data)
            <$> filter (λ e, e.1 = N) students) ≠ [] →
  ∃ c row comment, (N, c) ∈ students ∧ row ∈ data
    ∧ comment_of N c name_col row = Some comment.
Proof.
  intros ([s c] & [Hs Hin]%list_elem_of_filter & Hne)%concat_fmap_not_nil.
  cbn [fst snd] in *. subst s.
  apply omap_not_nil in Hne as (row & comment & Hrow & Hco).
  by exists c, row, comment.
Qed.

Lemma dd_getitem_total {V : Type} (d : defaultdict V) (k : string) (v : V) :
  default_factory d = Some v →
  ∃ d', dd_getitem d k = Ok (default v (dd_items d !! k), d').
Proof.
  intros Hf. unfold dd_getitem.
  destruct (dd_items d !! k) as [x|]; [by eexists|].
  rewrite Hf. by eexists.
Qed.

(** C10. Looking a name up in the comments mapping that [extract_comments]
    returns never fails: it yields the sequence stored under the name, and
    the empty sequence for a name without accepted comments, be it a
    registered student or a name never seen. *)
Theorem comments_lookup_total
    (data : list (list string)) (students : list (string * cols))
    (name_col : option nat) (comments : defaultdict (list string))
    (name : string) :
  extract_comments data students name_col = Ok comments →
  ∃ seq comments',
    dd_getitem comments name = Ok (seq, comments')
    ∧ seq = default [] (dd_items comments !! name)
    ∧ ((∀ c row, (name, c) ∈ students → row ∈ data →
          ¬ accepted_comment name c name_col row) → seq = []).
Proof.
  intros Hex.
  destruct (extract_comments_lookup _ _ _ _ name Hex) as [Hf Hlook].
  destruct (dd_getitem_total comments name [] Hf) as [comments' Hget].
  exists (default [] (dd_items comments !! name)), comments'.
  split; [done|]. split; [done|].
  intros Hnone.
  assert (concat ((λ e, comments_of e.1 e.2 name_col data)
                    <$> filter (λ e, e.1 = name) students) = []) as Hnil.
  { apply no_comment_entries. intros c row Hreg Hrow.
    apply comment_of_None. by apply Hnone. }
  by rewrite Hlook, Hnil.
Qed.

(** C8, as the code has it. A registered student without any accepted rating
    has raw average 0 in the raw-average mapping; the student is a key of
    the normalised mapping exactly when the score pool is not empty, and a
    key of the comments mapping exactly when some row that is not the
    student's own has a justification that is not blank. *)
Theorem unrated_student
    (data : list (list string)) (students : list (string * cols))
    (name_col : option nat) (raw_avgs : gmap string Qc) (all_scores : list Z)
    (comments : defaultdict (list string)) (target : Qc)
    (N : string) (c : cols) :
  (N, c) ∈ students →
  (∀ c' row, (N, c') ∈ students → row ∈ data →
     self_row N name_col row ∨ ¬ parseable c' row) →
  calculate_scores data students name_col = Ok (raw_avgs, all_scores) →
  extract_comments data students name_col = Ok comments →
  raw_avgs !! N = Some 0%Qc
  ∧ (is_Some ((normalize_scores raw_avgs all_scores target).1.1 !! N)
     ↔ all_scores ≠ [])
  ∧ (is_Some (dd_items comments !! N) ↔
     ∃ c' row, (N, c') ∈ students ∧ row ∈ data
       ∧ accepted_comment N c' name_col row).
Proof.
  intros Hreg Hnone Hcalc Hex.
  assert (raw_avgs !! N = Some 0%Qc) as Hraw.
  { apply calculate_scores_Ok in Hcalc.
    assert (raw_avgs = (scores_after data name_col (∅, []) students).1) as ->
      by (by rewrite <- Hcalc).
    rewrite scores_after_lookup.
    destruct (last (filter (λ e, e.1 = N) students)) as [[s c']|] eqn:Hlast.
    - apply last_filter_key in Hlast as [Hs Hin]. cbn [fst snd] in *. subst s.
      assert (ratings_of N c' name_col data = []) as ->; [|done].
      apply ratings_of_nil. intros row Hrow. by eapply Hnone.
    - apply last_filter_none in Hlast. destruct Hlast.
      apply list_elem_of_fmap. by exists (N, c). }
  split; [done|]. split.
  - destruct all_scores as [|s all_scores].
    + cbn [normalize_scores fst]. rewrite lookup_empty.
      split; [intros [? ?]; done|done].
    + rewrite normalize_scores_cons. cbn [fst]. rewrite lookup_fmap, Hraw.
      split; [done|]. intros _. by eexists.
  - destruct (extract_comments_lookup _ _ _ _ N Hex) as [_ ->].
    pose proof (no_comment_entries data students name_col N) as Hiff.
    destruct (concat _) as [|x cs] eqn:Hcat.
    + split; [intros [? ?]; done|].
      intros (c' & row & Hc' & Hrow & Hacc).
      assert (comment_of N c' name_col row = None) as Hco.
      { apply Hiff; done. }
      by apply comment_of_None in Hco.
    + split; [|intros _; by eexists]. intros _.
      destruct (some_comment_entry data students name_col N)
        as (c' & row & comment & Hc' & Hrow & Hco); [by rewrite Hcat|].
      apply comment_of_Some in Hco as (Hself & cell & Hcell & Hne & _).
      exists c', row. split; [done|]. split; [done|]. split; eauto.
Qed.

(** ** The mean of the adjusted raw averages *)

Lemma Qc_of_nat_ne_0 (n : nat) : n ≠ 0 → Qc_of_Z (Z.of_nat n) ≠ 0%Qc.
Proof. intros Hn. rewrite <- Z2Qc_inj_0, Z2Qc_inj_iff. lia. Qed.

Lemma average_length (l : list Z) :
  l ≠ [] → average l = true_div (sum l) (length l).
Proof. by destruct l. Qed.

Lemma last_filter_NoDup (students : list (string * cols)) (e : string * cols) :
  NoDup students.*1 → e ∈ students →
  last (filter (λ e', e'.1 = e.1) students) = Some e.
Proof.
  induction students as [|[s c] students IH]; intros Hnd Hin.
  - by apply elem_of_nil in Hin.
  - rewrite fmap_cons in Hnd. apply NoDup_cons in Hnd as [Hs Hnd].
    apply elem_of_cons in Hin as [->|Hin].
    + rewrite filter_cons_True by done.
      assert (filter (λ e', e'.1 = (s, c).1) students = []) as ->; [|done].
      by apply filter_key_nil.
    + rewrite filter_cons_False; [by apply IH|].
      cbn [fst]. intros ->. apply Hs. apply list_elem_of_fmap. by exists e.
Qed.



(** C8, as the spec has it, fails. First input: Ann is the only student and
    the only row is her own, so the pool is empty; her raw average is 0, but
    she is a key neither of the normalised mapping nor of the comments
    mapping. Second input: Bob has a rating, so Ann has a normalised score,
    but she is still not a key of the comments mapping. *)
Lemma unrated_student_missing_keys :
  let data1 := [["Ann"; "9"; "did it all"]] in
  let students1 := [("Ann", Cols 1 2)] in
  let data2 := [["Ann"; "9"; "did it all"; "7"; "helpful"]] in
  let students2 := [("Ann", Cols 1 2); ("Bob", Cols 3 4)] in
  extract_students_and_columns
    ["Select your name"; "Please rate the overall contribution from Ann";
     "Justification"] = (students1, Some 0)
  ∧ (λ r, (r.1 !! "Ann", r.2,
           (normalize_scores r.1 r.2 default_target).1.1 !! "Ann"))
      <$> calculate_scores data1 students1 (Some 0)
    = Ok (Some 0%Qc, [], None)
  ∧ (λ d, dd_contains d "Ann") <$> extract_comments data1 students1 (Some 0)
    = Ok false
  ∧ (λ r, (r.1 !! "Ann", r.2,
           (normalize_scores r.1 r.2 default_target).1.1 !! "Ann"))
      <$> calculate_scores data2 students2 (Some 0)
    = Ok (Some 0%Qc, [7%Z], Some 0%Z)
  ∧ (λ d, (dd_contains d "Ann", dd_items d !! "Bob"))
      <$> extract_comments data2 students2 (Some 0)
    = Ok (false, Some ["helpful"]).
Proof. vm_compute. done. Qed.

(** ** The registry that the header parser builds *)

Lemma dict_set_keys {V : Type} (k : string) (v : V) (d : list (string * V)) :
  (dict_set k v d).*1 = if decide (k ∈ d.*1) then d.*1 else d.*1 ++ [k].
Proof.
  induction d as [|[k' v'] d IH]; [done|].
  cbn [dict_set]. destruct (decide (k = k')) as [->|Hne]; rewrite !fmap_cons; cbn [fst].
  - by rewrite decide_True by left.
  - rewrite IH. destruct (decide (k ∈ d.*1)) as [Hin|Hnot].
    + by rewrite decide_True by (by right).
    + rewrite decide_False; [done|]. by intros [?|?]%elem_of_cons.
Qed.

Lemma dict_set_NoDup {V : Type} (k : string) (v : V) (d : list (string * V)) :
  NoDup d.*1 → NoDup (dict_set k v d).*1.
Proof.
  intros Hnd. rewrite dict_set_keys. destruct (decide (k ∈ d.*1)); [done|].
  apply NoDup_app. split; [done|]. split; [|apply NoDup_singleton].
  intros x Hx ->%list_elem_of_singleton. done.
Qed.

Lemma find_students_NoDup headers : ∀ i students,
  NoDup students.*1 → NoDup (find_students headers i students).*1.
Proof.
  induction headers as [|header headers IH]; intros i students Hnd; [done|].
  simpl. apply IH. destruct (overall_pattern_search header); [|done].
  by apply dict_set_NoDup.
Qed.

(** The names of the registry are distinct, as the keys of a dict are. *)
Lemma extract_students_NoDup headers :
  NoDup (extract_students_and_columns headers).1.*1.
Proof. apply find_students_NoDup. constructor. Qed.

(** ** The scenarios of the specification *)

(** Scenario A: Alice's own row is left out; her raw average is 8 and her
    only comment is "great work". *)
Example scenario_A :
  let headers := ["Select your name"; "Team"; "Week";
                  "Please rate the overall contribution from Alice";
                  "Justification"] in
  let data := [["Bob"; "..."; "..."; "8"; "great work"];
               ["Alice"; "..."; "..."; "9"; "n/a"]] in
  extract_students_and_columns headers = ([("Alice", Cols 3 4)], Some 0)
  ∧ (λ r, (this <$> r.1 !! "Alice", r.2))
      <$> calculate_scores data [("Alice", Cols 3 4)] (Some 0)
    = Ok (Some (8 # 1)%Q, [8%Z])
  ∧ (λ d, dd_items d !! "Alice")
      <$> extract_comments data [("Alice", Cols 3 4)] (Some 0)
    = Ok (Some ["great work"]).
Proof. vm_compute. done. Qed.

(** Scenarios C and D: 7.5 - 1.5 rounds to 6; 9.8 + 1.0 rounds to 11 and is
    clamped to 9. *)
Example scenario_C_D :
  clamp (round (Qc_of_Z 15 / Qc_of_Z 2 + (- Qc_of_Z 3 / Qc_of_Z 2))%Qc) = 6%Z
  ∧ round (Qc_of_Z 49 / Qc_of_Z 5 + Qc_of_Z 1)%Qc = 11%Z
  ∧ clamp (round (Qc_of_Z 49 / Qc_of_Z 5 + Qc_of_Z 1)%Qc) = 9%Z.
Proof. vm_compute. done. Qed.

(** The comparison with the rater is exact: a cell with a leading space is
    not the student's name, and the row counts. *)
Example untrimmed_rater_counts :
  (λ r, this <$> r.1 !! "Alice")
    <$> calculate_scores [[" Alice"; "9"; "me"]] [("Alice", Cols 1 2)] (Some 0)
  = Ok (Some (9 # 1)%Q).
Proof. vm_compute. done. Qed.

(** ** The theorems at concrete inputs *)

(** Scenario D through [normalize_scores]: raw average 9.8, pool [4], target
    5, hence adjustment +1 and score 9. *)
Lemma normalized_in_range_witness :
  let raw_avgs : gmap string Qc := {[ "Dee" := (Qc_of_Z 49 / Qc_of_Z 5)%Qc ]} in
  (normalize_scores raw_avgs [4%Z] default_target).1.1 !! "Dee" = Some 9%Z
  ∧ (0 ≤ 9 ≤ 9)%Z.
Proof.
  intros raw_avgs.
  assert ((normalize_scores raw_avgs [4%Z] default_target).1.1 !! "Dee"
          = Some 9%Z) as H by (vm_compute; reflexivity).
  split; [exact H|].
  exact (proj1 (normalized_in_range raw_avgs [4%Z] default_target "Dee" 9%Z H)).
Defined.



(** Ann has only her own row: raw average 0, a normalised score because Bob
    has a rating, no entry in the comments mapping. *)
Lemma unrated_student_witness :
  let students := [("Ann", Cols 1 2); ("Bob", Cols 3 4)] in
  let data := [["Ann"; "9"; "did it all"; "7"; "helpful"]] in
  let r := scores_after data (Some 0) (∅, []) students in
  let comments := comments_after data (Some 0) (DefaultDict (Some []) ∅) students in
  (("Ann", Cols 1 2) ∈ students
   ∧ (∀ c' row, ("Ann", c') ∈ students → row ∈ data →
        self_row "Ann" (Some 0) row ∨ ¬ parseable c' row)
   ∧ calculate_scores data students (Some 0) = Ok (r.1, r.2)
   ∧ extract_comments data students (Some 0) = Ok comments)
  ∧ r.1 !! "Ann" = Some 0%Qc
  ∧ is_Some ((normalize_scores r.1 r.2 default_target).1.1 !! "Ann")
  ∧ ¬ is_Some (dd_items comments !! "Ann").
Proof.
  intros students data r comments.
  assert (("Ann", Cols 1 2) ∈ students) as Hreg by apply list_elem_of_here.
  assert (∀ c' row, ("Ann", c') ∈ students → row ∈ data →
            self_row "Ann" (Some 0) row ∨ ¬ parseable c' row) as Hnone.
  { intros c' row _ Hrow. apply list_elem_of_singleton in Hrow as ->.
    left. exists 0. split; reflexivity. }
  assert (Forall (row_ok (Some 0)) data) as Hrows.
  { apply (bool_decide_unpack _); vm_compute; exact I. }
  assert (calculate_scores data students (Some 0) = Ok (r.1, r.2)) as Hcalc.
  { rewrite <- surjective_pairing. by apply calculate_scores_ok. }
  assert (extract_comments data students (Some 0) = Ok comments) as Hex.
  { by apply extract_comments_ok. }
  split; [done|].
  destruct (unrated_student data students (Some 0) r.1 r.2 comments
              default_target "Ann" (Cols 1 2) Hreg Hnone Hcalc Hex)
    as (Hraw & Hnorm & Hcomm).
  split; [exact Hraw|]. split.
  - apply Hnorm. apply (bool_decide_unpack _); vm_compute; exact I.
  - apply (bool_decide_unpack _); vm_compute; exact I.
Defined.

Lemma normalized_same_keys_witness :
  let raw_avgs : gmap string Qc := {[ "Ann" := 0%Qc; "Bob" := Qc_of_Z 7 ]} in
  [7%Z] ≠ []
  ∧ dom (normalize_scores raw_avgs [7%Z] default_target).1.1 = dom raw_avgs.
Proof.
  intros raw_avgs.
  assert ([7%Z] ≠ []) as Hpool by discriminate.
  split; [exact Hpool|].
  exact (normalized_same_keys raw_avgs [7%Z] default_target Hpool).
Defined.

(** Scenario A again: "Zed" was never seen, and looking the name up yields
    the empty sequence. *)
Lemma comments_lookup_total_witness :
  let students := [("Alice", Cols 3 4)] in
  let data := [["Bob"; "..."; "..."; "8"; "great work"];
               ["Alice"; "..."; "..."; "9"; "n/a"]] in
  let comments := comments_after data (Some 0) (DefaultDict (Some []) ∅) students in
  extract_comments data students (Some 0) = Ok comments
  ∧ ∃ seq comments',
      dd_getitem comments "Zed" = Ok (seq, comments')
      ∧ seq = default [] (dd_items comments !! "Zed")
      ∧ ((∀ c row, ("Zed", c) ∈ students → row ∈ data →
            ¬ accepted_comment "Zed" c (Some 0) row) → seq = []).
Proof.
  intros students data comments.
  assert (extract_comments data students (Some 0) = Ok comments) as Hex.
  { apply extract_comments_ok. apply (bool_decide_unpack _); vm_compute; exact I. }
  split; [exact Hex|].
  exact (comments_lookup_total data students (Some 0) comments "Zed" Hex).
Defined.

(** * Further properties of the two scripts *)

(** ** The header parser *)

Lemma dict_set_elem {V : Type} (k : string) (v : V) (d : list (string * V)) x :
  x ∈ dict_set k v d → x = (k, v) ∨ x ∈ d.
Proof.
  induction d as [|[k' v'] d IH]; cbn [dict_set].
  - intros ->%list_elem_of_singleton. by left.
  - destruct (decide (k = k')) as [->|Hne].
    + intros [->|Hin]%elem_of_cons; [by left|right; by right].
    + intros [->|Hin]%elem_of_cons; [right; by left|].
      destruct (IH Hin) as [->|Hd]; [by left|right; by right].
Qed.

Lemma dict_set_new {V : Type} (k : string) (v : V) (d : list (string * V)) :
  (k, v) ∈ dict_set k v d.
Proof.
  induction d as [|[k' v'] d IH]; cbn [dict_set]; [by left|].
  destruct (decide (k = k')); [by left|by right].
Qed.

Lemma dict_set_other {V : Type} (k : string) (v : V) (d : list (string * V)) s c :
  (s, c) ∈ d → s ≠ k → (s, c) ∈ dict_set k v d.
Proof.
  intros Hin Hne. induction d as [|[k' v'] d IH]; cbn [dict_set].
  - by apply elem_of_nil in Hin.
  - apply elem_of_cons in Hin as [[= <- <-]|Hin].
    + rewrite decide_False by done. by left.
    + destruct (decide (k = k')); right; [done|by apply IH].
Qed.

Lemma find_students_records pre headers : ∀ students s c,
  (∀ s c, (s, c) ∈ students →
     justification c = overall c + 1 ∧
     ∃ header g, (pre ++ headers) !! overall c = Some header
       ∧ overall_pattern_search header = Some g ∧ s = strip g) →
  (s, c) ∈ find_students headers (length pre) students →
  justification c = overall c + 1 ∧
  ∃ header g, (pre ++ headers) !! overall c = Some header
    ∧ overall_pattern_search header = Some g ∧ s = strip g.
Proof.
  revert pre. induction headers as [|h headers IH]; intros pre students s c Hinv Hin.
  - by apply Hinv.
  - cbn [find_students] in Hin.
    replace (S (length pre)) with (length (pre ++ [h])) in Hin
      by (rewrite length_app; simpl; lia).
    rewrite (cons_middle h pre headers), app_assoc.
    eapply IH; [|exact Hin].
    intros s' c' Hin'. rewrite <- app_assoc, <- cons_middle.
    destruct (overall_pattern_search h) as [g|] eqn:Hg; [|by apply Hinv].
    apply dict_set_elem in Hin' as [[= -> ->]|Hold]; [|by apply Hinv].
    cbn [overall justification]. split; [done|].
    exists h, g. by rewrite list_lookup_middle.
Qed.

(** X1. Every record of the registry that [extract_students_and_columns]
    builds has its justification column right after its rating column, and
    its rating column is a header that the pattern matches, the student's
    name being the stripped capture. *)
Theorem registry_records_wellformed (headers : list string) (s : string) (c : cols) :
  (s, c) ∈ (extract_students_and_columns headers).1 →
  justification c = overall c + 1 ∧
  ∃ header g, headers !! overall c = Some header
    ∧ overall_pattern_search header = Some g ∧ s = strip g.
Proof.
  intros Hin. apply (find_students_records [] headers [] s c); [|exact Hin].
  intros ? ? []%elem_of_nil.
Qed.

Lemma find_students_keeps headers : ∀ i students s c,
  (s, c) ∈ students →
  (∀ h g, h ∈ headers → overall_pattern_search h = Some g → strip g ≠ s) →
  (s, c) ∈ find_students headers i students.
Proof.
  induction headers as [|h headers IH]; intros i students s c Hin Hno; [done|].
  cbn [find_students]. apply IH.
  - destruct (overall_pattern_search h) as [g|] eqn:Hg; [|done].
    apply dict_set_other; [done|]. intros ->. eapply Hno; [by left|done|done].
  - intros h' g' Hh'. apply Hno. by right.
Qed.

Lemma find_students_last headers : ∀ k i students h g,
  headers !! k = Some h →
  overall_pattern_search h = Some g →
  (∀ j h' g', k < j → headers !! j = Some h' →
     overall_pattern_search h' = Some g' → strip g' ≠ strip g) →
  (strip g, Cols (i + k) (i + k + 1)) ∈ find_students headers i students.
Proof.
  induction headers as [|h0 headers IH]; intros k i students h g Hk Hg Hlater.
  - done.
  - cbn [find_students]. destruct k as [|k].
    + injection Hk as ->. rewrite Hg, Nat.add_0_r.
      apply find_students_keeps; [apply dict_set_new|].
      intros h' g' [j Hj]%list_elem_of_lookup Hg'.
      apply (Hlater (S j) h' g'); [lia|done|done].
    + replace (i + S k) with (S i + k) by lia. eapply IH; [exact Hk|exact Hg|].
      intros j h' g' Hlt Hj. apply (Hlater (S j) h' g'); [lia|done].
Qed.

(** X2. When several headers give the same name the last one wins: a header
    that the pattern matches, with no later header giving the same stripped
    name, is the student's record. *)
Theorem registry_last_match_wins (headers : list string) (i : nat) (h g : string) :
  headers !! i = Some h →
  overall_pattern_search h = Some g →
  (∀ j h' g', i < j → headers !! j = Some h' →
     overall_pattern_search h' = Some g' → strip g' ≠ strip g) →
  (strip g, Cols i (i + 1)) ∈ (extract_students_and_columns headers).1.
Proof.
  intros Hi Hg Hlater.
  apply (find_students_last headers i 0 [] h g Hi Hg Hlater).
Qed.

Lemma find_students_snoc headers h : ∀ i students,
  find_students (headers ++ [h]) i students =
    match overall_pattern_search h with
    | Some g =>
        dict_set (strip g) (Cols (i + length headers) (i + length headers + 1))
          (find_students headers i students)
    | None => find_students headers i students
    end.
Proof.
  induction headers as [|h0 headers IH]; intros i students.
  - cbn [app find_students length]. by rewrite Nat.add_0_r.
  - cbn [app find_students length]. rewrite IH.
    by replace (S i + length headers) with (i + S (length headers)) by lia.
Qed.

(** X3. The names of the registry are pairwise distinct and stand in the
    order of their first appearance in the header row: they are the stripped
    captures of the matching headers, each kept at its first occurrence. *)
Theorem registry_names_first_appearance (headers : list string) :
  let names := omap (λ h, strip <$> overall_pattern_search h) headers in
  NoDup (extract_students_and_columns headers).1.*1
  ∧ (extract_students_and_columns headers).1.*1
    = reverse (remove_dups (reverse names)).
Proof.
  intros names. split; [apply find_students_NoDup; constructor|].
  unfold names, extract_students_and_columns. cbn [fst]. clear names.
  induction headers as [|h headers IH] using rev_ind; [done|].
  rewrite find_students_snoc, omap_app, reverse_app.
  assert (omap (λ h, strip <$> overall_pattern_search h) [h]
          = match overall_pattern_search h with
            | Some g => [strip g]
            | None => []
            end) as -> by (simpl; by destruct (overall_pattern_search h)).
  destruct (overall_pattern_search h) as [g|]; [|done].
  rewrite reverse_singleton. cbn [app remove_dups]. rewrite dict_set_keys, IH.
  set (names := omap (λ h, strip <$> overall_pattern_search h) headers).
  assert (strip g ∈ reverse (remove_dups (reverse names))
          ↔ strip g ∈ reverse names) as Hiff.
  { by rewrite !elem_of_reverse, elem_of_remove_dups, elem_of_reverse. }
  destruct (decide (strip g ∈ reverse (remove_dups (reverse names)))) as [Hin|Hnot];
    destruct (decide_rel elem_of (strip g) (reverse names)) as [Hin'|Hnot'].
  - done.
  - by apply Hiff in Hin.
  - by apply Hiff in Hin'.
  - by rewrite reverse_cons.
Qed.

Lemma contains_unfold (p s : string) :
  contains p s =
    startswith p s ||
    match s with
    | EmptyString => false
    | String _ s' => contains p s'
    end.
Proof. by destruct s. Qed.

Lemma startswith_app_contains (a b : string) : ∀ s,
  startswith (a +:+ b) s = true → contains b s = true.
Proof.
  induction a as [|c a IH]; intros s Hs.
  - rewrite contains_unfold. change (startswith b s = true) in Hs. by rewrite Hs.
  - destruct s as [|c' s]; [done|].
    change (bool_decide (c = c') && startswith (a +:+ b) s = true) in Hs.
    apply andb_true_iff in Hs as [_ Hs]. rewrite contains_unfold.
    rewrite (IH _ Hs). apply orb_true_r.
Qed.

Lemma contains_app (a b : string) : ∀ s,
  contains (a +:+ b) s = true → contains b s = true.
Proof.
  induction s as [|c s IH]; rewrite (contains_unfold (a +:+ b)).
  - rewrite orb_false_r. apply (startswith_app_contains a b).
  - intros [Hs|Hs]%orb_true_iff; [by apply (startswith_app_contains a b)|].
    rewrite contains_unfold, (IH Hs). apply orb_true_r.
Qed.

Lemma name_header_test (h : string) :
  contains "select your name" (lower h) || contains "your name" (lower h)
  = contains "your name" (lower h).
Proof.
  destruct (contains "select your name" (lower h)) eqn:Hsel; [|done].
  symmetry. apply (contains_app "select " "your name"), Hsel.
Qed.

Lemma find_name_col_spec headers : ∀ i0,
  match find_name_col headers i0 with
  | Some i =>
      ∃ k h, i = i0 + k ∧ headers !! k = Some h
        ∧ contains "your name" (lower h) = true
        ∧ ∀ j h', j < k → headers !! j = Some h' →
            contains "your name" (lower h') = false
  | None => ∀ h, h ∈ headers → contains "your name" (lower h) = false
  end.
Proof.
  induction headers as [|h headers IH]; intros i0.
  - intros h []%elem_of_nil.
  - cbn [find_name_col]. rewrite name_header_test.
    destruct (contains "your name" (lower h)) eqn:Hh.
    + exists 0, h. split; [lia|]. split; [done|]. split; [done|]. intros; lia.
    + specialize (IH (S i0)). destruct (find_name_col headers (S i0)) as [i|].
      * destruct IH as (k & h' & -> & Hk & Hh' & Hbefore).
        exists (S k), h'. split; [lia|]. split; [done|]. split; [done|].
        intros [|j] h'' Hlt Hj; [by injection Hj as <-|].
        apply (Hbefore j); [lia|done].
      * intros h' [->|Hin]%elem_of_cons; [done|by apply IH].
Qed.

(** X4. The identity column is the first header that contains "your name"
    once lower-cased (the test for "select your name" adds nothing), and
    there is none exactly when no header contains it. *)
Theorem name_col_first_your_name (headers : list string) :
  match (extract_students_and_columns headers).2 with
  | Some i =>
      (∃ h, headers !! i = Some h ∧ contains "your name" (lower h) = true)
      ∧ ∀ j h, j < i → headers !! j = Some h →
          contains "your name" (lower h) = false
  | None => ∀ h, h ∈ headers → contains "your name" (lower h) = false
  end.
Proof.
  cbn [extract_students_and_columns snd].
  pose proof (find_name_col_spec headers 0) as Hspec.
  destruct (find_name_col headers 0) as [i|]; [|done].
  destruct Hspec as (k & h & -> & Hk & Hh & Hbefore). split; [by exists h|done].
Qed.

(** ** Stripping *)

Lemma rstrip_idemp (s : string) : rstrip (rstrip s) = rstrip s.
Proof.
  induction s as [|c s IH]; [done|]. cbn [rstrip].
  destruct (rstrip s) as [|c' r] eqn:Hr.
  - destruct (isspace c) eqn:Hc; [done|]. cbn [rstrip]. by rewrite Hc.
  - cbn [rstrip]. cbn [rstrip] in IH. by rewrite IH.
Qed.

Lemma rstrip_lstrip (t : string) : rstrip t = t → rstrip (lstrip t) = lstrip t.
Proof.
  induction t as [|c t IH]; [done|]. intros Ht. cbn [lstrip].
  destruct (isspace c) eqn:Hc; [|done]. apply IH.
  cbn [rstrip] in Ht. destruct (rstrip t) as [|c' r] eqn:Hr.
  - rewrite Hc in Ht. done.
  - by injection Ht.
Qed.

Lemma lstrip_idemp (s : string) : lstrip (lstrip s) = lstrip s.
Proof.
  induction s as [|c s IH]; [done|]. cbn [lstrip].
  destruct (isspace c) eqn:Hc; [done|]. cbn [lstrip]. by rewrite Hc.
Qed.

Lemma strip_idemp (s : string) : strip (strip s) = strip s.
Proof.
  unfold strip. rewrite (rstrip_lstrip (rstrip s)) by apply rstrip_idemp.
  apply lstrip_idemp.
Qed.

(** X5. Every name of the registry is stripped: stripping it again changes
    nothing, so a name has no whitespace at either end. *)
Theorem registry_names_stripped (headers : list string) (s : string) (c : cols) :
  (s, c) ∈ (extract_students_and_columns headers).1 → strip s = s.
Proof.
  intros Hin.
  destruct (find_students_records [] headers [] s c) as (_ & h & g & _ & _ & ->);
    [intros ? ? []%elem_of_nil|exact Hin|].
  apply strip_idemp.
Qed.

(** ** The header pattern *)

Lemma match_literal_app (l1 l2 : string) : ∀ s,
  match_literal (l1 +:+ l2) s = match_literal l1 s ≫= match_literal l2.
Proof.
  induction l1 as [|a l1 IH]; intros s.
  - change ("" +:+ l2) with l2. by destruct s.
  - change (String a l1 +:+ l2) with (String a (l1 +:+ l2)).
    destruct s as [|b s]; [done|]. cbn [match_literal].
    destruct (decide (lower_char a = lower_char b)); [apply IH|done].
Qed.

Lemma match_literal_lower (lit : string) : ∀ p s,
  lower p = lower lit → match_literal lit (p +:+ s) = Some s.
Proof.
  induction lit as [|a lit IH]; intros p s Hp.
  - destruct p; [|done]. by destruct s.
  - destruct p as [|b p]; [done|]. injection Hp as Hb Hp.
    change (String b p +:+ s) with (String b (p +:+ s)). cbn [match_literal].
    rewrite decide_True by done. by apply IH.
Qed.

Lemma dot_plus_line (name : string) :
  name ≠ EmptyString →
  ¬ In "010"%char (list_ascii_of_string name) →
  dot_plus name = Some name.
Proof.
  intros Hne Hlf. unfold dot_plus.
  assert (dot_star name = name) as ->; [|by destruct name].
  clear Hne. induction name as [|c name IH]; [done|].
  cbn [dot_star]. destruct (decide (c = "010"%char)) as [->|_].
  - destruct Hlf. by left.
  - rewrite IH; [done|]. intros Hin. apply Hlf. by right.
Qed.

Lemma overall_pattern_found (s g : string) :
  overall_pattern_here s = Some g → overall_pattern_search s = Some g.
Proof. intros Hg. destruct s; cbn [overall_pattern_search]; by rewrite Hg. Qed.

(** X6. A header made of "Please rate ", the optional article "the ",
    "overall contribution from " (letters in any case) and a name on one
    line is matched with the name as capture, so the parser registers the
    stripped name with the header's column and the next one. *)
Theorem canonical_header_detected (p1 p2 p3 name : string) :
  lower p1 = lower "Please rate " →
  p2 = EmptyString ∨ lower p2 = lower "the " →
  lower p3 = lower "overall contribution from " →
  name ≠ EmptyString →
  ¬ In "010"%char (list_ascii_of_string name) →
  overall_pattern_search (p1 +:+ p2 +:+ p3 +:+ name) = Some name
  ∧ (extract_students_and_columns [p1 +:+ p2 +:+ p3 +:+ name]).1
    = [(strip name, Cols 0 1)].
Proof.
  intros H1 H2 H3 Hne Hlf.
  assert (overall_pattern_search (p1 +:+ p2 +:+ p3 +:+ name) = Some name) as Hs.
  { apply overall_pattern_found. unfold overall_pattern_here.
    rewrite (match_literal_lower _ _ _ H1). cbn [mbind option_bind].
    destruct H2 as [->|H2].
    - change ("" +:+ p3 +:+ name) with (p3 +:+ name).
      rewrite (match_literal_lower _ _ _ H3). cbn [mbind option_bind].
      rewrite (dot_plus_line _ Hne Hlf).
      destruct p3 as [|c p3]; [done|]. injection H3 as Hc _.
      change (String c p3 +:+ name) with (String c (p3 +:+ name)).
      cbn [match_literal]. rewrite decide_False; [done|].
      rewrite Hc. by vm_compute.
    - rewrite (match_literal_lower _ _ _ H2). cbn [mbind option_bind].
      rewrite (match_literal_lower _ _ _ H3). cbn [mbind option_bind].
      by rewrite (dot_plus_line _ Hne Hlf). }
  split; [done|].
  unfold extract_students_and_columns. cbn [fst find_students]. by rewrite Hs.
Qed.

(** ** When the scoring functions raise *)

Lemma short_rows_iff (name_col : option nat) (data : list (list string)) :
  ¬ Forall (row_ok name_col) data ↔
  ∃ c row, name_col = Some c ∧ row ∈ data ∧ row !! c = None.
Proof.
  split.
  - intros Hno. apply not_Forall_Exists in Hno; [|apply _].
    apply Exists_exists in Hno as (row & Hrow & Hshort).
    destruct name_col as [c|]; [|by destruct Hshort].
    exists c, row. split; [done|]. split; [done|].
    by apply eq_None_not_Some.
  - intros (c & row & -> & Hrow & Hnone) Hall.
    rewrite Forall_forall in Hall. specialize (Hall row Hrow).
    cbn [row_ok] in Hall. rewrite Hnone in Hall. by destruct Hall.
Qed.

(** X7. [extract_comments] raises exactly when there is a student and some
    row does not reach the identity column, and then it raises
    [IndexError]; on those inputs [calculate_scores] raises [IndexError]
    too. *)
Theorem short_rows_raise_index_error
    (data : list (list string)) (students : list (string * cols))
    (name_col : option nat) (e : exn) :
  let short := students ≠ []
               ∧ ∃ c row, name_col = Some c ∧ row ∈ data ∧ row !! c = None in
  (extract_comments data students name_col = Raise e ↔ short ∧ e = IndexError)
  ∧ (short → calculate_scores data students name_col = Raise IndexError).
Proof.
  intros short. unfold short. rewrite <- short_rows_iff. split.
  - destruct students as [|entry students].
    + split; [done|by intros [[? _] _]].
    + destruct (decide (Forall (row_ok name_col) data)) as [Hall|Hno].
      * rewrite extract_comments_ok by done.
        split; [done|by intros [[_ ?] _]].
      * rewrite extract_comments_short by done.
        split; [by intros [= <-]|by intros [_ ->]].
  - intros [Hstud Hno]. by apply calculate_scores_short.
Qed.

(** X8. Without an identity column [extract_comments] returns,
    [calculate_scores] does not raise [IndexError], and the score list of a
    student holds every rating cell of the student's column that [int]
    accepts, in row order, self-ratings included. *)
Theorem no_name_col_no_index_error
    (data : list (list string)) (students : list (string * cols)) :
  (∃ comments, extract_comments data students None = Ok comments)
  ∧ calculate_scores data students None ≠ Raise IndexError
  ∧ ∀ entry,
      student_scores data None entry
      = Ok (omap (λ row,
                    match list_getitem row (overall entry.2) ≫= int with
                    | Ok score => Some score
                    | Raise _ => None
                    end) data).
Proof.
  assert (Forall (row_ok None) data) as Hall by (by apply Forall_true).
  split; [|split].
  - eexists. by apply extract_comments_ok.
  - by rewrite calculate_scores_ok.
  - intros entry. by rewrite (student_scores_ok _ _ _ Hall).
Qed.

(** ** What the mappings hold *)

Lemma raw_avgs_lookup_is_Some data students name_col raw_avgs all_scores k :
  calculate_scores data students name_col = Ok (raw_avgs, all_scores) →
  is_Some (raw_avgs !! k) ↔ k ∈ students.*1.
Proof.
  intros Hcalc%calculate_scores_Ok.
  assert (raw_avgs = (scores_after data name_col (∅, []) students).1) as ->
    by (by rewrite <- Hcalc).
  rewrite scores_after_lookup.
  destruct (last (filter (λ e, e.1 = k) students)) as [e|] eqn:Hlast.
  - split; [intros _|by eexists].
    apply last_filter_key in Hlast as [<- Hin].
    apply list_elem_of_fmap. by exists e.
  - apply last_filter_none in Hlast. cbn [fst]. rewrite lookup_empty.
    split; [by intros [? ?]|done].
Qed.

(** X9. When [calculate_scores] returns, the keys of the raw-average mapping
    are exactly the names of the registry. *)
Theorem raw_avgs_keys
    (data : list (list string)) (students : list (string * cols))
    (name_col : option nat) (raw_avgs : gmap string Qc) (all_scores : list Z) :
  calculate_scores data students name_col = Ok (raw_avgs, all_scores) →
  dom raw_avgs = list_to_set students.*1.
Proof.
  intros Hcalc. apply set_eq. intros k.
  rewrite elem_of_dom, elem_of_list_to_set.
  by eapply raw_avgs_lookup_is_Some.
Qed.

Lemma elem_of_concat {A : Type} (x : A) (ls : list (list A)) :
  x ∈ concat ls → ∃ l, x ∈ l ∧ l ∈ ls.
Proof.
  induction ls as [|l ls IH]; cbn [concat].
  - by intros ?%elem_of_nil.
  - intros [Hx|Hx]%elem_of_app.
    + exists l. split; [done|by left].
    + destruct (IH Hx) as (l' & Hl' & Hin). exists l'. split; [done|by right].
Qed.

(** X10. Every list stored in the comments mapping belongs to a registered
    name, is not empty, and holds only stripped justification cells that are
    not blank, taken from rows that are not the student's own. *)
Theorem stored_comments_accepted
    (data : list (list string)) (students : list (string * cols))
    (name_col : option nat) (comments : defaultdict (list string))
    (N : string) (l : list string) :
  extract_comments data students name_col = Ok comments →
  dd_items comments !! N = Some l →
  l ≠ [] ∧ N ∈ students.*1
  ∧ ∀ x, x ∈ l →
      x ≠ EmptyString
      ∧ ∃ c row cell, (N, c) ∈ students ∧ row ∈ data
          ∧ ¬ self_row N name_col row
          ∧ row !! justification c = Some cell ∧ x = strip cell.
Proof.
  intros Hex Hl.
  destruct (extract_comments_lookup _ _ _ _ N Hex) as [_ Hlook].
  rewrite Hl in Hlook.
  destruct (concat _) as [|y cs] eqn:Hcat; [done|]. injection Hlook as ->.
  split; [done|]. split.
  - destruct (decide (N ∈ students.*1)) as [|Hnot]; [done|].
    apply filter_key_nil in Hnot. by rewrite Hnot in Hcat.
  - intros x Hx. rewrite <- Hcat in Hx.
    apply elem_of_concat in Hx as (cs' & Hx & Hcs').
    apply list_elem_of_fmap in Hcs' as ([s c] & -> & [Hs Hin]%list_elem_of_filter).
    cbn [fst snd] in *. subst s.
    apply list_elem_of_omap in Hx as (row & Hrow & Hco).
    apply comment_of_Some in Hco as (Hself & cell & Hcell & Hne & ->).
    split; [done|]. by exists c, row, cell.
Qed.

(** ** The pool and the raw averages *)

Lemma calculate_scores_rows data students name_col r :
  calculate_scores data students name_col = Ok r →
  students = [] ∨ Forall (row_ok name_col) data.
Proof.
  intros Hcalc. destruct students as [|entry students]; [by left|]. right.
  destruct (decide (Forall (row_ok name_col) data)) as [|Hno]; [done|].
  by rewrite calculate_scores_short in Hcalc.
Qed.

(** X11. With distinct names, the raw average of every student is the
    average of the student's own score list (0 for an empty list), and the
    pool is the concatenation of the score lists in registry order. *)
Theorem pool_is_concatenation
    (data : list (list string)) (students : list (string * cols))
    (name_col : option nat) (raw_avgs : gmap string Qc) (all_scores : list Z) :
  NoDup students.*1 →
  calculate_scores data students name_col = Ok (raw_avgs, all_scores) →
  ∃ lists,
    Forall2 (λ entry scores,
               student_scores data name_col entry = Ok scores
               ∧ raw_avgs !! entry.1 = Some (average scores))
      students lists
    ∧ all_scores = concat lists.
Proof.
  intros Hnd Hcalc.
  destruct (calculate_scores_rows _ _ _ _ Hcalc) as [->|Hrows].
  { exists []. injection Hcalc as <- <-. split; [constructor|done]. }
  apply calculate_scores_Ok in Hcalc.
  assert (raw_avgs = (scores_after data name_col (∅, []) students).1) as ->
    by (by rewrite <- Hcalc).
  assert (all_scores = (scores_after data name_col (∅, []) students).2) as ->
    by (by rewrite <- Hcalc).
  exists ((λ e, ratings_of e.1 e.2 name_col data) <$> students).
  split; [|by rewrite scores_after_pool].
  apply Forall2_fmap_r, Forall_Forall2_diag, Forall_forall.
  intros e Hin. split; [by apply student_scores_ok|].
  by rewrite scores_after_lookup, (last_filter_NoDup _ _ Hnd Hin).
Qed.

Lemma sum_between (lo hi : Z) (l : list Z) :
  Forall (λ z, lo ≤ z ≤ hi)%Z l →
  (lo * Z.of_nat (length l) ≤ sum l ≤ hi * Z.of_nat (length l))%Z.
Proof.
  induction 1 as [|z l Hz _ IH]; [unfold sum; simpl; lia|].
  unfold sum in *. cbn [foldr length]. lia.
Qed.

Lemma average_between (lo hi : Z) (l : list Z) :
  l ≠ [] →
  Forall (λ z, lo ≤ z ≤ hi)%Z l →
  (Qc_of_Z lo ≤ average l ∧ average l ≤ Qc_of_Z hi)%Qc.
Proof.
  intros Hne Hall. rewrite (average_length _ Hne). unfold true_div.
  pose proof (sum_between lo hi l Hall) as [Hlo Hhi].
  assert (length l ≠ 0) as Hn by (by destruct l).
  pose proof (Qc_of_nat_ne_0 _ Hn) as HN.
  assert (0 < Qc_of_Z (Z.of_nat (length l)))%Qc as Hpos.
  { rewrite <- Z2Qc_inj_0. apply (proj1 (Z2Qc_inj_lt _ _)). lia. }
  assert ((Qc_of_Z (sum l) / Qc_of_Z (Z.of_nat (length l)))
            * Qc_of_Z (Z.of_nat (length l)) = Qc_of_Z (sum l))%Qc as Hdiv
    by (by field).
  split.
  - apply (Qcmult_le_mono_pos_r _ _ _ Hpos).
    rewrite Hdiv, <- Z2Qc_inj_mul. by apply (proj1 (Z2Qc_inj_le _ _)).
  - apply (Qcmult_le_mono_pos_r _ _ _ Hpos).
    rewrite Hdiv, <- Z2Qc_inj_mul. by apply (proj1 (Z2Qc_inj_le _ _)).
Qed.

Lemma ratings_in_pool data students name_col s c z :
  (s, c) ∈ students →
  z ∈ ratings_of s c name_col data →
  z ∈ (scores_after data name_col (∅, []) students).2.
Proof.
  intros Hin Hz. rewrite scores_after_pool. cbn [snd app].
  induction students as [|e students IH]; [by apply elem_of_nil in Hin|].
  rewrite fmap_cons. cbn [concat]. apply elem_of_app.
  apply elem_of_cons in Hin as [<-|Hin]; [by left|right; by apply IH].
Qed.

(** X12. When every rating of the pool lies between [lo] and [hi], two
    integers that binary64 holds exactly, every raw average is 0 (a student
    without ratings) or lies between [lo] and [hi]. *)
Theorem raw_average_bounds
    (data : list (list string)) (students : list (string * cols))
    (name_col : option nat) (raw_avgs : gmap string Qc) (all_scores : list Z)
    (lo hi : Z) (N : string) (q : Qc) :
  (- 2 ^ 53 ≤ lo)%Z → (hi ≤ 2 ^ 53)%Z →
  calculate_scores data students name_col = Ok (raw_avgs, all_scores) →
  (∀ z, z ∈ all_scores → (lo ≤ z ≤ hi)%Z) →
  raw_avgs !! N = Some q →
  q = 0%Qc ∨ (Qc_of_Z lo ≤ q ∧ q ≤ Qc_of_Z hi)%Qc.
Proof.
  intros _ _ Hcalc%calculate_scores_Ok Hpool Hq.
  assert (raw_avgs = (scores_after data name_col (∅, []) students).1) as Hraw
    by (by rewrite <- Hcalc).
  assert (all_scores = (scores_after data name_col (∅, []) students).2) as Hall
    by (by rewrite <- Hcalc).
  rewrite Hraw, scores_after_lookup in Hq.
  destruct (last (filter (λ e, e.1 = N) students)) as [[s c]|] eqn:Hlast; [|done].
  apply last_filter_key in Hlast as [Hs Hin]. cbn [fst snd] in *. subst s.
  injection Hq as <-.
  destruct (ratings_of N c name_col data) as [|z l] eqn:Hl; [by left|].
  right. rewrite <- Hl. apply average_between; [by rewrite Hl|].
  apply Forall_forall. intros z' Hz'. apply Hpool. rewrite Hall.
  by eapply ratings_in_pool.
Qed.

(** ** Order under normalisation *)

Lemma frac_lt_half (x : Qc) :
  (x - Qc_of_Z (Qfloor x) < half)%Qc ↔ (x - inject_Z (Qfloor x) < 1 # 2)%Q.
Proof. unfold Qclt. by rewrite this_minus, this_Qc_of_Z, this_half. Qed.

Lemma half_lt_frac (x : Qc) :
  (half < x - Qc_of_Z (Qfloor x))%Qc ↔ ((1 # 2) < x - inject_Z (Qfloor x))%Q.
Proof. unfold Qclt. by rewrite this_minus, this_Qc_of_Z, this_half. Qed.

(** [round] is monotone. *)
Lemma round_mono (x y : Qc) : (x ≤ y)%Qc → (round x ≤ round y)%Z.
Proof.
  intros Hxy. unfold Qcle in Hxy.
  pose proof (Qfloor_resp_le _ _ Hxy) as Hfloor.
  pose proof (Qfloor_le x) as Hx1. pose proof (Qlt_floor x) as Hx2.
  pose proof (Qfloor_le y) as Hy1. pose proof (Qlt_floor y) as Hy2.
  rewrite inject_Z_plus in Hx2, Hy2. change (inject_Z 1) with 1%Q in Hx2, Hy2.
  unfold round.
  destruct (decide (x - Qc_of_Z (Qfloor x) < half)%Qc) as [Hx|Hx];
    [|destruct (decide (half < x - Qc_of_Z (Qfloor x))%Qc) as [Hx'|Hx']];
    (destruct (decide (y - Qc_of_Z (Qfloor y) < half)%Qc) as [Hy|Hy];
     [|destruct (decide (half < y - Qc_of_Z (Qfloor y))%Qc) as [Hy'|Hy']]);
    rewrite ?frac_lt_half, ?half_lt_frac in *;
    destruct (decide (Qfloor x = Qfloor y)) as [Heq|Hneq];
    try (destruct (Z.even (Qfloor x)), (Z.even (Qfloor y)); lia);
    try (rewrite Heq in *; destruct (Z.even (Qfloor y)); first [lia|exfalso; lra]).
Qed.

Lemma clamp_mono (a b : Z) : (a ≤ b)%Z → (clamp a ≤ clamp b)%Z.
Proof. unfold clamp. lia. Qed.

(** X13. Normalisation keeps the order of the raw averages: a student whose
    raw average is not above another's does not get a higher score. *)
Theorem normalized_monotone
    (raw_avgs : gmap string Qc) (all_scores : list Z) (target : Qc)
    (a b : string) (ra rb : Qc) (sa sb : Z) :
  raw_avgs !! a = Some ra →
  raw_avgs !! b = Some rb →
  (ra ≤ rb)%Qc →
  (normalize_scores raw_avgs all_scores target).1.1 !! a = Some sa →
  (normalize_scores raw_avgs all_scores target).1.1 !! b = Some sb →
  (sa ≤ sb)%Z.
Proof.
  intros Ha Hb Hle. destruct all_scores as [|s all_scores]; [done|].
  rewrite normalize_scores_cons. cbn [fst]. rewrite !lookup_fmap, Ha, Hb.
  intros [= <-] [= <-]. apply clamp_mono, round_mono.
  by apply Qcplus_le_mono_r.
Qed.

Lemma round_of_Z (t : Z) : round (Qc_of_Z t) = t.
Proof.
  unfold round. rewrite this_Qc_of_Z, Qfloor_Z.
  rewrite decide_True; [done|].
  unfold Qclt. rewrite this_minus, this_Qc_of_Z, this_half. lra.
Qed.

(** X15. When all ratings of the pool are the same value, of magnitude at
    most 2^52 so that binary64 holds it and its distance to 5 exactly, every
    student who has a rating gets the default target 5. *)
Theorem uniform_ratings_give_target
    (data : list (list string)) (students : list (string * cols))
    (name_col : option nat) (raw_avgs : gmap string Qc) (all_scores : list Z)
    (v : Z) (N : string) (c : cols) (scores : list Z) :
  (Z.abs v ≤ 2 ^ 52)%Z →
  NoDup students.*1 →
  calculate_scores data students name_col = Ok (raw_avgs, all_scores) →
  (∀ z, z ∈ all_scores → z = v) →
  (N, c) ∈ students →
  student_scores data name_col (N, c) = Ok scores →
  scores ≠ [] →
  (normalize_scores raw_avgs all_scores default_target).1.1 !! N = Some 5%Z.
Proof.
  intros _ Hnd Hcalc Hpool Hin Hscores Hne.
  destruct (calculate_scores_rows _ _ _ _ Hcalc) as [->|Hrows];
    [by apply elem_of_nil in Hin|].
  rewrite (student_scores_ok _ _ _ Hrows) in Hscores. injection Hscores as <-.
  apply calculate_scores_Ok in Hcalc.
  assert (raw_avgs = (scores_after data name_col (∅, []) students).1) as Hraw
    by (by rewrite <- Hcalc).
  assert (all_scores = (scores_after data name_col (∅, []) students).2) as Hall
    by (by rewrite <- Hcalc).
  cbn [fst snd] in Hne.
  assert (∀ l : list Z, l ≠ [] → (∀ z, z ∈ l → z = v) → average l = Qc_of_Z v)
    as Hconst.
  { intros l Hl Hv. apply Qcle_antisym; apply (average_between v v l Hl);
      apply Forall_forall; intros z Hz; rewrite (Hv z Hz); lia. }
  assert (raw_avgs !! N = Some (Qc_of_Z v)) as HN.
  { pose proof (last_filter_NoDup _ _ Hnd Hin) as Hlast. cbn [fst] in Hlast.
    rewrite Hraw, scores_after_lookup, Hlast.
    cbn [fst snd]. f_equal. apply Hconst; [done|].
    intros z Hz. apply Hpool. rewrite Hall. by eapply ratings_in_pool. }
  assert (all_scores ≠ []) as Hnonempty.
  { destruct (ratings_of N c name_col data) as [|z l] eqn:Hl; [done|].
    assert (z ∈ all_scores) as Hz.
    { rewrite Hall. eapply ratings_in_pool; [done|]. rewrite Hl. by left. }
    intros Hnil. rewrite Hnil in Hz. by apply elem_of_nil in Hz. }
  assert (true_div (sum all_scores) (length all_scores) = Qc_of_Z v) as Hmean.
  { rewrite <- (average_length _ Hnonempty). by apply Hconst. }
  destruct all_scores as [|s all_scores]; [done|].
  rewrite normalize_scores_cons. cbn [fst]. rewrite lookup_fmap, HN, Hmean.
  cbn. f_equal.
  replace (Qc_of_Z v + (default_target - Qc_of_Z v))%Qc with (Qc_of_Z 5)
    by (unfold default_target; ring).
  by rewrite round_of_Z.
Qed.

(** ** Comments over more rows *)

Lemma extract_comments_rows data students name_col comments :
  extract_comments data students name_col = Ok comments →
  students = [] ∨ Forall (row_ok name_col) data.
Proof.
  intros Hex. destruct students as [|entry students]; [by left|]. right.
  destruct (decide (Forall (row_ok name_col) data)) as [|Hno]; [done|].
  by rewrite extract_comments_short in Hex.
Qed.

Lemma comments_default_lookup data students name_col comments N :
  extract_comments data students name_col = Ok comments →
  default [] (dd_items comments !! N)
  = concat ((λ e, comments_of e.1 e.2 name_col data)
              <$> filter (λ e, e.1 = N) students).
Proof.
  intros Hex. destruct (extract_comments_lookup _ _ _ _ N Hex) as [_ ->].
  by destruct (concat _).
Qed.

Lemma filter_key_NoDup (N : string) (students : list (string * cols)) :
  NoDup students.*1 →
  filter (λ e, e.1 = N) students = []
  ∨ ∃ e, filter (λ e, e.1 = N) students = [e].
Proof.
  induction students as [|[s c] students IH]; intros Hnd; [by left|].
  rewrite fmap_cons in Hnd. apply NoDup_cons in Hnd as [Hs Hnd].
  destruct (decide (s = N)) as [->|Hne].
  - right. exists (N, c). rewrite filter_cons_True by done.
    by rewrite (proj2 (filter_key_nil N students) Hs).
  - rewrite filter_cons_False by done. by apply IH.
Qed.

(** X16. With distinct names, the comments collected over the rows of two
    tables put one after the other are, for every name, the comments of the
    first table followed by those of the second: the order of the rows is
    kept. *)
Theorem comments_of_appended_rows
    (data1 data2 : list (list string)) (students : list (string * cols))
    (name_col : option nat) (comments1 comments2 : defaultdict (list string)) :
  NoDup students.*1 →
  extract_comments data1 students name_col = Ok comments1 →
  extract_comments data2 students name_col = Ok comments2 →
  ∃ comments,
    extract_comments (data1 ++ data2) students name_col = Ok comments
    ∧ ∀ N, default [] (dd_items comments !! N)
           = default [] (dd_items comments1 !! N)
             ++ default [] (dd_items comments2 !! N).
Proof.
  intros Hnd Hex1 Hex2.
  assert (∃ comments,
            extract_comments (data1 ++ data2) students name_col = Ok comments)
    as [comments Hex].
  { destruct (extract_comments_rows _ _ _ _ Hex1) as [->|Hrows1]; [by eexists|].
    destruct (extract_comments_rows _ _ _ _ Hex2) as [->|Hrows2]; [by eexists|].
    eexists. apply extract_comments_ok. by apply Forall_app. }
  exists comments. split; [done|]. intros N.
  rewrite (comments_default_lookup _ _ _ _ N Hex),
    (comments_default_lookup _ _ _ _ N Hex1),
    (comments_default_lookup _ _ _ _ N Hex2).
  destruct (filter_key_NoDup N students Hnd) as [->|[e ->]]; [done|].
  cbn [fmap list_fmap concat]. rewrite !app_nil_r.
  unfold comments_of. apply omap_app.
Qed.

(** ** The report *)

Lemma io_bind_IO {A B : Type} (out : list line) (a : A) (f : A → io B) :
  IO out (Ok a) ≫= f = IO (out ++ output (f a)) (outcome (f a)).
Proof. done. Qed.

Lemma io_eta {A : Type} (m : io A) : IO (output m) (outcome m) = m.
Proof. by destruct m. Qed.

Lemma print_summary_lines n group_mean adjustment title :
  print_summary n group_mean adjustment title
  = IO (summary_lines n group_mean adjustment title) (Ok tt).
Proof. done. Qed.

Lemma table_rows_lines (raw_avgs : gmap string Qc) (normalised : gmap string Z)
    (order : list string) : ∀ k,
  (∀ s, s ∈ order → is_Some (raw_avgs !! s) ∧ is_Some (normalised !! s)) →
  io_for_each (λ _ '(num, student),
      raw ← eval (dict_getitem raw_avgs student);
      score ← eval (dict_getitem normalised student);
      print (TableRow num student raw score))
    tt (enumerate order k)
  = IO ((λ row : nat * string,
           TableRow row.1 row.2 (default 0%Qc (raw_avgs !! row.2))
             (default 0%Z (normalised !! row.2)))
          <$> enumerate order k) (Ok tt).
Proof.
  induction order as [|s order IH]; intros k Hkeys; [done|].
  destruct (Hkeys s) as [[raw Hraw] [score Hscore]]; [by left|].
  cbn [enumerate io_for_each fmap list_fmap fst snd].
  match goal with
  | |- ?m ≫= _ = _ =>
      assert (m = IO [TableRow k s raw score] (Ok tt)) as ->
        by (cbn; unfold dict_getitem, eval; by rewrite Hraw, Hscore)
  end.
  rewrite io_bind_IO, IH by (intros s' Hs'; apply Hkeys; by right).
  by rewrite Hraw, Hscore.
Qed.

Lemma print_table_lines first order raw_avgs normalised :
  (∀ s, s ∈ order → is_Some (raw_avgs !! s) ∧ is_Some (normalised !! s)) →
  print_table first order raw_avgs normalised
  = IO (table_lines first order raw_avgs normalised) (Ok tt).
Proof.
  intros Hkeys. unfold print_table.
  rewrite (table_rows_lines _ _ _ _ Hkeys). unfold print.
  by rewrite !io_bind_IO.
Qed.

Lemma print_statistics_lines normalised :
  print_statistics normalised = IO (statistics_lines normalised) (Ok tt).
Proof. unfold print_statistics, eval. by rewrite median_of_spec. Qed.

Lemma feedback_block_ext show_lines normalised d d' student :
  default [] (dd_items d' !! student) = default [] (dd_items d !! student) →
  feedback_block show_lines normalised d' student
  = feedback_block show_lines normalised d student.
Proof. intros Heq. unfold feedback_block. by rewrite Heq. Qed.

Lemma print_feedback_lines (show : list string → io unit)
    (show_lines : list string → list line) (normalised : gmap string Z)
    (d : defaultdict (list string)) (student : string) (score : Z) :
  (∀ l, show l = IO (show_lines l) (Ok tt)) →
  default_factory d = Some [] →
  normalised !! student = Some score →
  ∃ d',
    print_feedback show normalised d student
    = IO (feedback_block show_lines normalised d student) (Ok d')
    ∧ default_factory d' = Some []
    ∧ ∀ k, default [] (dd_items d' !! k) = default [] (dd_items d !! k).
Proof.
  intros Hshow Hf Hscore.
  unfold print_feedback, feedback_block, eval, print, dict_getitem, dd_getitem.
  rewrite Hscore.
  destruct (dd_items d !! student) as [[|x l]|] eqn:Hd.
  - exists d. split; [done|]. by split.
  - exists d. split; [|by split].
    cbn. rewrite Hd. cbn. rewrite Hshow. cbn. by rewrite app_nil_r.
  - rewrite Hf. eexists. split; [done|]. split; [done|].
    intros k. cbn [dd_items]. destruct (decide (student = k)) as [->|Hne].
    + by rewrite lookup_insert_eq, Hd.
    + by rewrite lookup_insert_ne.
Qed.

Lemma print_feedbacks_lines (show : list string → io unit)
    (show_lines : list string → list line) (normalised : gmap string Z)
    (order : list string) : ∀ d,
  (∀ l, show l = IO (show_lines l) (Ok tt)) →
  default_factory d = Some [] →
  (∀ s, s ∈ order → is_Some (normalised !! s)) →
  ∃ d',
    io_for_each (print_feedback show normalised) d order
    = IO (concat (feedback_block show_lines normalised d <$> order)) (Ok d').
Proof.
  induction order as [|s order IH]; intros d Hshow Hf Hkeys.
  - by exists d.
  - destruct (Hkeys s) as [score Hscore]; [by left|].
    destruct (print_feedback_lines show show_lines normalised d s score
                Hshow Hf Hscore) as (d1 & Hstep & Hf1 & Hsame).
    destruct (IH d1 Hshow Hf1) as [d' Hrest];
      [intros s' Hs'; apply Hkeys; by right|].
    exists d'. cbn [io_for_each]. rewrite Hstep, io_bind_IO, Hrest.
    cbn [output outcome fmap list_fmap concat]. do 2 f_equal.
    f_equal. apply list_fmap_ext. intros i s' _.
    by apply feedback_block_ext.
Qed.

Lemma generate_report_lines (first : string) (show : list string → io unit)
    (show_lines : list string → list line) (order : list string) (n : nat)
    (raw_avgs : gmap string Qc) (normalised : gmap string Z)
    (comments : defaultdict (list string)) (group_mean adjustment : Qc)
    (title : string) :
  (∀ l, show l = IO (show_lines l) (Ok tt)) →
  default_factory comments = Some [] →
  (∀ s, s ∈ order → is_Some (raw_avgs !! s) ∧ is_Some (normalised !! s)) →
  (print_summary n group_mean adjustment title;;
   print_table first order raw_avgs normalised;;
   print_statistics normalised;;
   print_feedbacks show order normalised comments;;
   mret tt)
  = IO (report_lines first show_lines order n raw_avgs normalised comments
          group_mean adjustment title) (Ok tt).
Proof.
  intros Hshow Hf Hkeys.
  destruct (print_feedbacks_lines show show_lines normalised order comments
              Hshow Hf) as [d' Hfeed]; [intros s Hs; by apply Hkeys|].
  rewrite print_summary_lines, (print_table_lines _ _ _ _ Hkeys),
    print_statistics_lines.
  unfold print_feedbacks, print. rewrite Hfeed.
  rewrite !io_bind_IO. cbn [output outcome mret io_ret]. unfold report_lines.
  cbn [mbind io_bind output outcome mret io_ret app]. by rewrite app_nil_r.
Qed.

Lemma show_bullets (listed : list string) :
  io_for_each (λ _ comment, print (Text ("    - " +:+ comment))) tt listed
  = IO ((λ comment, Text ("    - " +:+ comment)) <$> listed) (Ok tt).
Proof.
  induction listed as [|comment listed IH]; [done|].
  cbn [io_for_each]. unfold mbind, io_bind. cbn [print output outcome].
  by rewrite IH.
Qed.

(** X17. [generate_report] of pa_report.py, given a score and a raw average
    for every student, completes and prints exactly: the banner and summary,
    the table with one numbered row per student in registry order, the mean
    and median, and one feedback block per student in the same order, with
    one bullet per comment or the "no comments" line. *)
Theorem pa_report_lines
    (students : list (string * cols)) (raw_avgs : gmap string Qc)
    (normalised : gmap string Z) (comments : defaultdict (list string))
    (group_mean adjustment : Qc) (title : string) :
  default_factory comments = Some [] →
  (∀ s, s ∈ students.*1 → is_Some (raw_avgs !! s) ∧ is_Some (normalised !! s)) →
  PaReport.generate_report students raw_avgs normalised comments group_mean
    adjustment title
  = IO (report_lines "#"
          (λ listed, (λ comment, Text ("    - " +:+ comment)) <$> listed)
          students.*1 (length students) raw_avgs normalised comments
          group_mean adjustment title) (Ok tt).
Proof.
  intros Hf Hkeys. unfold PaReport.generate_report, student_keys.
  by apply generate_report_lines; [apply show_bullets| |].
Qed.

Lemma insert_desc_elem {A : Type} (key : A → Z) (x y : A) (l : list A) :
  y ∈ insert_desc key x l → y = x ∨ y ∈ l.
Proof.
  induction l as [|z l IH]; cbn [insert_desc].
  - intros ->%list_elem_of_singleton. by left.
  - destruct (decide _).
    + intros [->|Hy]%elem_of_cons; [by left|by right].
    + intros [->|Hy]%elem_of_cons; [right; by left|].
      destruct (IH Hy) as [->|Hl]; [by left|right; by right].
Qed.

Lemma sorted_reverse_elem {A : Type} (key : A → Z) (l : list A) (y : A) :
  y ∈ sorted_reverse key l → y ∈ l.
Proof.
  unfold sorted_reverse. induction l as [|x l IH]; [done|]. cbn [foldr].
  intros [->|Hy]%insert_desc_elem; [by left|right; by apply IH].
Qed.

(** X18. [generate_report] of peer_assessment_report.py, under the same
    conditions, completes and prints the same report with the students
    ranked by descending score in the table and in the feedback blocks, and
    the comments of a student joined by " | " on one line. *)
Theorem peer_assessment_report_lines
    (students : list (string * cols)) (raw_avgs : gmap string Qc)
    (normalized : gmap string Z) (comments : defaultdict (list string))
    (group_mean adjustment : Qc) (title : string) :
  default_factory comments = Some [] →
  (∀ s, s ∈ students.*1 → is_Some (raw_avgs !! s) ∧ is_Some (normalized !! s)) →
  PeerAssessmentReport.generate_report students raw_avgs normalized comments
    group_mean adjustment title
  = IO (report_lines "Rank"
          (λ listed, [Text ("    " +:+ join " | " listed)])
          (sorted_reverse (λ s, dict_get normalized s 0%Z) students.*1)
          (length students) raw_avgs normalized comments
          group_mean adjustment title) (Ok tt).
Proof.
  intros Hf Hkeys. unfold PeerAssessmentReport.generate_report, student_keys.
  apply generate_report_lines; [done|done|].
  intros s Hs. by apply Hkeys, (sorted_reverse_elem _ _ _ Hs).
Qed.

(** ** The ranking of peer_assessment_report.py *)

Lemma insert_desc_Permutation {A : Type} (key : A → Z) (x : A) (l : list A) :
  insert_desc key x l ≡ₚ x :: l.
Proof.
  induction l as [|y l IH]; cbn [insert_desc]; [done|].
  destruct (decide _); [done|]. rewrite IH. apply Permutation_swap.
Qed.

Lemma insert_desc_Sorted {A : Type} (key : A → Z) (x : A) (l : list A) :
  Sorted (λ a b, key b ≤ key a)%Z l →
  Sorted (λ a b, key b ≤ key a)%Z (insert_desc key x l).
Proof.
  induction l as [|y l IH]; intros Hl; cbn [insert_desc].
  - repeat constructor.
  - destruct (decide (key y ≤ key x)%Z) as [Hle|Hgt].
    + constructor; [done|]. by constructor.
    + apply Sorted_inv in Hl as [Hl Hhd]. constructor; [by apply IH|].
      destruct l as [|z l]; cbn [insert_desc].
      * constructor. lia.
      * destruct (decide (key z ≤ key x)%Z); constructor; [lia|].
        by apply HdRel_inv in Hhd.
Qed.

Lemma insert_desc_filter {A : Type} (key : A → Z) (k : Z) (x : A) (l : list A) :
  filter (λ y, key y = k) (insert_desc key x l)
  = filter (λ y, key y = k) (x :: l).
Proof.
  induction l as [|y l IH]; cbn [insert_desc]; [done|].
  destruct (decide (key y ≤ key x)%Z) as [Hle|Hgt]; [done|].
  destruct (decide (key y = k)) as [Hy|Hy].
  - rewrite (filter_cons_True _ y) by done. rewrite IH.
    rewrite (filter_cons_False _ x) by lia.
    rewrite (filter_cons_False _ x) by lia.
    by rewrite filter_cons_True.
  - rewrite (filter_cons_False _ y) by done. rewrite IH.
    destruct (decide (key x = k)) as [Hx|Hx].
    + rewrite !(filter_cons_True _ x) by done.
      by rewrite filter_cons_False.
    + rewrite !(filter_cons_False _ x) by done.
      by rewrite filter_cons_False.
Qed.

(** X19. The ranking lists every student once, by descending score, and
    students with the same score in their registry order: [sorted] with
    [reverse=True] is a stable sort. *)
Theorem ranking_sorted_stable (normalized : gmap string Z) (names : list string) :
  let key := λ s, dict_get normalized s 0%Z in
  let ranked := sorted_reverse key names in
  ranked ≡ₚ names
  ∧ Sorted (λ a b, key b ≤ key a)%Z ranked
  ∧ ∀ k, filter (λ s, key s = k) ranked = filter (λ s, key s = k) names.
Proof.
  intros key ranked. unfold ranked, sorted_reverse. clear ranked.
  induction names as [|x names (Hperm & Hsorted & Hstable)]; cbn [foldr].
  - split; [done|]. split; [constructor|done].
  - split; [by rewrite insert_desc_Permutation, Hperm|].
    split; [by apply insert_desc_Sorted|].
    intros k. rewrite insert_desc_filter.
    destruct (decide (key x = k)).
    + rewrite !(filter_cons_True _ x) by done. by rewrite Hstable.
    + rewrite !(filter_cons_False _ x) by done. apply Hstable.
Qed.

(** ** main *)

Lemma main_with_students report headers data entry students :
  (extract_students_and_columns headers).1 = entry :: students →
  ∃ rest,
    main_with report (headers :: data)
    = IO ((match (extract_students_and_columns headers).2 with
           | None => [Text "Warning: Could not find respondent name column. Self-assessments won't be excluded."]
           | Some _ => []
           end)
          ++ Detected (length (entry :: students))
               (join ", " (student_keys (entry :: students)))
             :: Blank :: output rest)
         (outcome rest)
    ∧ rest =
        ('(raw_avgs, all_scores) ←
           eval (calculate_scores data (entry :: students)
                   (extract_students_and_columns headers).2);
         let '(normalised, group_mean, adjustment) :=
           normalize_scores raw_avgs all_scores default_target in
         comments ←
           eval (extract_comments data (entry :: students)
                   (extract_students_and_columns headers).2);
         report (entry :: students) raw_avgs normalised comments group_mean
           adjustment).
Proof.
  intros Hstud. eexists. split; [|reflexivity].
  unfold main_with. cbn [parse_csv list_getitem lookup list_lookup mbind
    result_bind drop extract_students_and_columns fst snd] in *.
  rewrite Hstud. by destruct (find_name_col headers 0).
Qed.

(** X20. With a student in the registry, [main] of either script first
    prints the warning when there is no identity column (and not
    otherwise), then the number and names of the detected students and an
    empty line, whatever happens afterwards. *)
Theorem main_announces_students
    (headers : list string) (data : list (list string)) :
  (extract_students_and_columns headers).1 ≠ [] →
  let students := (extract_students_and_columns headers).1 in
  let announced :=
    (match (extract_students_and_columns headers).2 with
     | None => [Text "Warning: Could not find respondent name column. Self-assessments won't be excluded."]
     | Some _ => []
     end)
    ++ [Detected (length students) (join ", " students.*1); Blank] in
  (∃ rest, output (PaReport.main (headers :: data)) = announced ++ rest)
  ∧ (∃ rest, output (PeerAssessmentReport.main (headers :: data))
             = announced ++ rest).
Proof.
  intros Hne students announced. unfold announced, students.
  destruct (extract_students_and_columns headers).1 as [|entry l] eqn:Hstud;
    [done|].
  split.
  - unfold PaReport.main.
    edestruct main_with_students as (rest & -> & _); [exact Hstud|].
    exists (output rest). cbn [output]. by rewrite <- app_assoc.
  - unfold PeerAssessmentReport.main.
    edestruct main_with_students as (rest & -> & _); [exact Hstud|].
    exists (output rest). cbn [output]. by rewrite <- app_assoc.
Qed.

Lemma find_students_none headers : ∀ i students,
  (∀ h, h ∈ headers → overall_pattern_search h = None) →
  find_students headers i students = students.
Proof.
  induction headers as [|h headers IH]; intros i students Hnone; [done|].
  cbn [find_students]. rewrite (Hnone h) by left.
  apply IH. intros h' Hh'. apply Hnone. by right.
Qed.

Lemma main_with_no_students report headers data :
  (∀ h, h ∈ headers → overall_pattern_search h = None) →
  main_with report (headers :: data)
  = IO [Text "Error: Could not find any students in the CSV file.";
        Text "Expected columns like 'Please rate the overall contribution from [Name]'"]
       (Raise (SystemExit 1)).
Proof.
  intros Hnone. unfold main_with.
  cbn [parse_csv list_getitem lookup list_lookup mbind result_bind drop
    extract_students_and_columns].
  by rewrite (find_students_none _ _ _ Hnone).
Qed.

(** X21. When no header matches the pattern, [main] of either script prints
    the two lines of explanation and exits with status 1 without scoring
    anything; on a file without rows it prints the reading error and exits
    with status 1. *)
Theorem main_exits_without_students
    (headers : list string) (data : list (list string)) :
  (∀ h, h ∈ headers → overall_pattern_search h = None) →
  let explained :=
    IO [Text "Error: Could not find any students in the CSV file.";
        Text "Expected columns like 'Please rate the overall contribution from [Name]'"]
       (Raise (SystemExit 1)) in
  PaReport.main (headers :: data) = explained
  ∧ PeerAssessmentReport.main (headers :: data) = explained
  ∧ PaReport.main [] = IO [ErrorReading IndexError] (Raise (SystemExit 1))
  ∧ PeerAssessmentReport.main [] = IO [ErrorReading IndexError] (Raise (SystemExit 1)).
Proof.
  intros Hnone explained. unfold explained, PaReport.main, PeerAssessmentReport.main.
  by rewrite !(main_with_no_students _ _ _ Hnone).
Qed.

Lemma normalised_lookup_is_Some raw_avgs all_scores target k :
  all_scores ≠ [] →
  is_Some (raw_avgs !! k) →
  is_Some ((normalize_scores raw_avgs all_scores target).1.1 !! k).
Proof.
  intros Hne [raw Hraw]. destruct all_scores as [|s all_scores]; [done|].
  rewrite normalize_scores_cons. cbn [fst]. rewrite lookup_fmap, Hraw. by eexists.
Qed.

Lemma main_with_completes report headers data raw_avgs all_scores lines :
  calculate_scores data (extract_students_and_columns headers).1
    (extract_students_and_columns headers).2 = Ok (raw_avgs, all_scores) →
  all_scores ≠ [] →
  (∀ comments,
     default_factory comments = Some [] →
     report (extract_students_and_columns headers).1 raw_avgs
       (normalize_scores raw_avgs all_scores default_target).1.1 comments
       (normalize_scores raw_avgs all_scores default_target).1.2
       (normalize_scores raw_avgs all_scores default_target).2
     = IO (lines comments) (Ok tt)) →
  ∃ comments,
    extract_comments data (extract_students_and_columns headers).1
      (extract_students_and_columns headers).2 = Ok comments
    ∧ main_with report (headers :: data)
      = IO ((match (extract_students_and_columns headers).2 with
             | None => [Text "Warning: Could not find respondent name column. Self-assessments won't be excluded."]
             | Some _ => []
             end)
            ++ Detected (length (extract_students_and_columns headers).1)
                 (join ", " (extract_students_and_columns headers).1.*1)
               :: Blank :: lines comments)
           (Ok tt).
Proof.
  intros Hcalc Hpool Hreport.
  destruct (extract_students_and_columns headers).1 as [|entry l] eqn:Hstud.
  { injection Hcalc as _ <-. done. }
  destruct (calculate_scores_rows _ _ _ _ Hcalc) as [|Hrows]; [done|].
  pose proof (extract_comments_ok data (entry :: l) _ Hrows) as Hex.
  eexists. split; [exact Hex|].
  destruct (main_with_students report headers data entry l Hstud)
    as (rest & -> & ->).
  rewrite Hcalc, Hex. unfold eval. rewrite io_bind_IO.
  specialize (Hreport (comments_after data (extract_students_and_columns headers).2
                         (DefaultDict (Some []) ∅) (entry :: l))).
  rewrite comments_after_factory in Hreport. specialize (Hreport eq_refl).
  destruct (normalize_scores raw_avgs all_scores default_target)
    as [[normalised group_mean] adjustment].
  cbn [fst snd] in Hreport. rewrite io_bind_IO, Hreport.
  by cbn [output outcome app].
Qed.

Lemma sorted_reverse_Permutation {A : Type} (key : A → Z) (l : list A) :
  sorted_reverse key l ≡ₚ l.
Proof.
  unfold sorted_reverse. induction l as [|x l IH]; [done|]. cbn [foldr].
  by rewrite insert_desc_Permutation, IH.
Qed.

Lemma table_rows_students (raw_avgs : gmap string Qc) (normalised : gmap string Z)
    (order : list string) : ∀ k,
  omap table_row_student
    ((λ row : nat * string,
        TableRow row.1 row.2 (default 0%Qc (raw_avgs !! row.2))
          (default 0%Z (normalised !! row.2)))
       <$> enumerate order k)
  = order.
Proof.
  induction order as [|s order IH]; intros k; [done|].
  cbn [enumerate fmap list_fmap omap list_omap table_row_student fst snd].
  f_equal. apply IH.
Qed.

Lemma feedback_blocks_no_rows show_lines normalised comments (order : list string) :
  (∀ listed, omap table_row_student (show_lines listed) = []) →
  omap table_row_student
    (concat (feedback_block show_lines normalised comments <$> order)) = [].
Proof.
  intros Hshow. induction order as [|s order IH]; [done|].
  rewrite fmap_cons. cbn [concat]. rewrite omap_app, IH, app_nil_r.
  unfold feedback_block. rewrite !omap_app.
  destruct (default [] (dd_items comments !! s)) as [|x l]; [done|].
  cbn [omap list_omap table_row_student app]. by rewrite Hshow.
Qed.

Lemma report_lines_students first show_lines order n raw_avgs normalised
    comments group_mean adjustment title :
  (∀ listed, omap table_row_student (show_lines listed) = []) →
  omap table_row_student
    (report_lines first show_lines order n raw_avgs normalised comments
       group_mean adjustment title)
  = order.
Proof.
  intros Hshow. unfold report_lines, table_lines. rewrite !omap_app.
  rewrite table_rows_students, (feedback_blocks_no_rows _ _ _ _ Hshow).
  cbn. by rewrite !app_nil_r.
Qed.

Lemma bullets_no_rows (listed : list string) :
  omap table_row_student
    ((λ comment, Text ("    - " +:+ comment)) <$> listed) = [].
Proof. induction listed as [|c listed IH]; [done|]. by rewrite fmap_cons. Qed.

(** X22. When [calculate_scores] returns a pool that is not empty, with
    ratings that binary64 holds exactly, [main] of either script runs to
    completion; the table of pa_report.py lists the students in registry
    order and the table of peer_assessment_report.py lists each student
    once. *)
Theorem main_completes
    (headers : list string) (data : list (list string))
    (raw_avgs : gmap string Qc) (all_scores : list Z) :
  let students := (extract_students_and_columns headers).1 in
  let name_col := (extract_students_and_columns headers).2 in
  calculate_scores data students name_col = Ok (raw_avgs, all_scores) →
  all_scores ≠ [] →
  (∀ z, z ∈ all_scores → (Z.abs z ≤ 2 ^ 53)%Z) →
  outcome (PaReport.main (headers :: data)) = Ok tt
  ∧ outcome (PeerAssessmentReport.main (headers :: data)) = Ok tt
  ∧ omap table_row_student (output (PaReport.main (headers :: data)))
    = students.*1
  ∧ omap table_row_student
      (output (PeerAssessmentReport.main (headers :: data)))
    ≡ₚ students.*1.
Proof.
  intros students name_col Hcalc Hpool _.
  set (normalised := (normalize_scores raw_avgs all_scores default_target).1.1).
  set (group_mean := (normalize_scores raw_avgs all_scores default_target).1.2).
  set (adjustment := (normalize_scores raw_avgs all_scores default_target).2).
  assert (∀ s, s ∈ students.*1 →
            is_Some (raw_avgs !! s) ∧ is_Some (normalised !! s)) as Hkeys.
  { intros s Hs.
    assert (is_Some (raw_avgs !! s)) as Hraw
      by (by eapply raw_avgs_lookup_is_Some).
    split; [done|]. by apply normalised_lookup_is_Some. }
  destruct (main_with_completes
              (λ students raw_avgs normalised comments group_mean adjustment,
                 PaReport.generate_report students raw_avgs normalised comments
                   group_mean adjustment "PEER ASSESSMENT REPORT")
              headers data raw_avgs all_scores
              (λ comments,
                 report_lines "#"
                   (λ listed, (λ comment, Text ("    - " +:+ comment)) <$> listed)
                   students.*1 (length students) raw_avgs normalised comments
                   group_mean adjustment "PEER ASSESSMENT REPORT")
              Hcalc Hpool)
    as (comments & Hex & Hpa).
  { intros comments Hf. unfold PaReport.generate_report, student_keys.
    by apply generate_report_lines; [apply show_bullets| |]. }
  destruct (main_with_completes
              (λ students raw_avgs normalized comments group_mean adjustment,
                 PeerAssessmentReport.generate_report students raw_avgs
                   normalized comments group_mean adjustment
                   "PEER ASSESSMENT REPORT")
              headers data raw_avgs all_scores
              (λ comments,
                 report_lines "Rank"
                   (λ listed, [Text ("    " +:+ join " | " listed)])
                   (sorted_reverse (λ s, dict_get normalised s 0%Z) students.*1)
                   (length students) raw_avgs normalised comments
                   group_mean adjustment "PEER ASSESSMENT REPORT")
              Hcalc Hpool)
    as (comments' & Hex' & Hpeer).
  { intros comments0 Hf. unfold PeerAssessmentReport.generate_report, student_keys.
    apply generate_report_lines; [done|done|].
    intros s Hs. by apply Hkeys, (sorted_reverse_elem _ _ _ Hs). }
  unfold PaReport.main, PeerAssessmentReport.main. rewrite Hpa, Hpeer.
  cbn [outcome output]. split; [done|]. split; [done|].
  fold students name_col. rewrite !omap_app.
  assert (omap table_row_student
            (match name_col with
             | Some _ => []
             | None => [Text "Warning: Could not find respondent name column. Self-assessments won't be excluded."]
             end) = []) as -> by (by destruct name_col).
  cbn [app omap list_omap table_row_student].
  split.
  - apply report_lines_students, bullets_no_rows.
  - rewrite report_lines_students by done. apply sorted_reverse_Permutation.
Qed.

(** ** The further properties at concrete inputs *)

Lemma sample_registry :
  extract_students_and_columns sample_headers = (sample_students, Some 0).
Proof. vm_compute. done. Qed.

Lemma sample_rows_ok : Forall (row_ok (Some 0)) sample_data.
Proof. apply (bool_decide_unpack _); vm_compute; exact I. Qed.

Lemma sample_names_distinct : NoDup sample_students.*1.
Proof. apply (bool_decide_unpack _); vm_compute; exact I. Qed.

Lemma sample_scores :
  let r := scores_after sample_data (Some 0) (∅, []) sample_students in
  calculate_scores sample_data sample_students (Some 0) = Ok (r.1, r.2).
Proof.
  intros r. rewrite <- surjective_pairing.
  apply calculate_scores_ok, sample_rows_ok.
Qed.

Lemma registry_records_wellformed_witness :
  ("Bob", Cols 3 4) ∈ (extract_students_and_columns sample_headers).1
  ∧ justification (Cols 3 4) = overall (Cols 3 4) + 1.
Proof.
  assert (("Bob", Cols 3 4) ∈ (extract_students_and_columns sample_headers).1)
    as Hin by (apply (bool_decide_unpack _); vm_compute; exact I).
  split; [exact Hin|].
  exact (proj1 (registry_records_wellformed sample_headers "Bob" (Cols 3 4) Hin)).
Defined.

Lemma registry_last_match_wins_witness :
  let headers := ["Please rate the overall contribution from Ann";
                  "Justification";
                  "Please rate overall contribution from  Ann ";
                  "Justification"] in
  (headers !! 2 = Some "Please rate overall contribution from  Ann "
   ∧ overall_pattern_search "Please rate overall contribution from  Ann "
     = Some " Ann "
   ∧ ∀ j h' g', 2 < j → headers !! j = Some h' →
       overall_pattern_search h' = Some g' → strip g' ≠ strip " Ann ")
  ∧ (strip " Ann ", Cols 2 (2 + 1)) ∈ (extract_students_and_columns headers).1.
Proof.
  intros headers.
  assert (headers !! 2 = Some "Please rate overall contribution from  Ann ")
    as H1 by reflexivity.
  assert (overall_pattern_search "Please rate overall contribution from  Ann "
          = Some " Ann ") as H2 by (vm_compute; reflexivity).
  assert (∀ j h' g', 2 < j → headers !! j = Some h' →
            overall_pattern_search h' = Some g' → strip g' ≠ strip " Ann ")
    as H3.
  { intros j h' g' Hlt Hj Hg'. destruct j as [|[|[|[|j]]]]; try lia.
    - injection Hj as <-. vm_compute in Hg'. discriminate.
    - discriminate. }
  split; [done|].
  exact (registry_last_match_wins headers 2 _ _ H1 H2 H3).
Defined.

Lemma registry_names_stripped_witness :
  ("Ann", Cols 1 2) ∈ (extract_students_and_columns sample_headers).1
  ∧ strip "Ann" = "Ann".
Proof.
  assert (("Ann", Cols 1 2) ∈ (extract_students_and_columns sample_headers).1)
    as Hin by (apply (bool_decide_unpack _); vm_compute; exact I).
  split; [exact Hin|].
  exact (registry_names_stripped sample_headers "Ann" (Cols 1 2) Hin).
Defined.

Lemma canonical_header_detected_witness :
  (lower "PLEASE RATE " = lower "Please rate "
   ∧ (EmptyString = EmptyString ∨ lower EmptyString = lower "the ")
   ∧ lower "Overall Contribution From " = lower "overall contribution from "
   ∧ "Ann" ≠ EmptyString
   ∧ ¬ In "010"%char (list_ascii_of_string "Ann"))
  ∧ overall_pattern_search
      ("PLEASE RATE " +:+ "" +:+ "Overall Contribution From " +:+ "Ann")
    = Some "Ann".
Proof.
  assert (lower "PLEASE RATE " = lower "Please rate ") as H1 by reflexivity.
  assert (EmptyString = EmptyString ∨ lower EmptyString = lower "the ") as H2
    by (by left).
  assert (lower "Overall Contribution From " = lower "overall contribution from ")
    as H3 by reflexivity.
  assert ("Ann" ≠ EmptyString) as H4 by discriminate.
  assert (¬ In "010"%char (list_ascii_of_string "Ann")) as H5.
  { simpl. intros [H|[H|[H|[]]]]; discriminate. }
  split; [done|].
  exact (proj1 (canonical_header_detected "PLEASE RATE " ""
                  "Overall Contribution From " "Ann" H1 H2 H3 H4 H5)).
Defined.

Lemma raw_avgs_keys_witness :
  let r := scores_after sample_data (Some 0) (∅, []) sample_students in
  calculate_scores sample_data sample_students (Some 0) = Ok (r.1, r.2)
  ∧ dom r.1 = list_to_set sample_students.*1.
Proof.
  intros r. split; [apply sample_scores|].
  exact (raw_avgs_keys sample_data sample_students (Some 0) r.1 r.2 sample_scores).
Defined.

Lemma stored_comments_accepted_witness :
  let comments :=
    comments_after sample_data (Some 0) (DefaultDict (Some []) ∅) sample_students in
  (extract_comments sample_data sample_students (Some 0) = Ok comments
   ∧ dd_items comments !! "Ann" = Some ["led the work"])
  ∧ ["led the work"] ≠ [] ∧ "Ann" ∈ sample_students.*1.
Proof.
  intros comments.
  assert (extract_comments sample_data sample_students (Some 0) = Ok comments)
    as Hex by apply extract_comments_ok, sample_rows_ok.
  assert (dd_items comments !! "Ann" = Some ["led the work"]) as Hl
    by (vm_compute; reflexivity).
  split; [done|].
  destruct (stored_comments_accepted sample_data sample_students (Some 0)
              comments "Ann" ["led the work"] Hex Hl) as (Hne & Hin & _).
  by split.
Defined.

Lemma pool_is_concatenation_witness :
  let r := scores_after sample_data (Some 0) (∅, []) sample_students in
  (NoDup sample_students.*1
   ∧ calculate_scores sample_data sample_students (Some 0) = Ok (r.1, r.2))
  ∧ ∃ lists,
      Forall2 (λ entry scores,
                 student_scores sample_data (Some 0) entry = Ok scores
                 ∧ r.1 !! entry.1 = Some (average scores))
        sample_students lists
      ∧ r.2 = concat lists.
Proof.
  intros r. split; [split; [apply sample_names_distinct|apply sample_scores]|].
  exact (pool_is_concatenation sample_data sample_students (Some 0) r.1 r.2
           sample_names_distinct sample_scores).
Defined.

Lemma raw_average_bounds_witness :
  let r := scores_after sample_data (Some 0) (∅, []) sample_students in
  ((- 2 ^ 53 ≤ 0)%Z ∧ (9 ≤ 2 ^ 53)%Z
   ∧ calculate_scores sample_data sample_students (Some 0) = Ok (r.1, r.2)
   ∧ (∀ z, z ∈ r.2 → (0 ≤ z ≤ 9)%Z)
   ∧ r.1 !! "Ann" = Some (average [8%Z]))
  ∧ (average [8%Z] = 0%Qc
     ∨ (Qc_of_Z 0 ≤ average [8%Z] ∧ average [8%Z] ≤ Qc_of_Z 9)%Qc).
Proof.
  intros r.
  assert (∀ z, z ∈ r.2 → (0 ≤ z ≤ 9)%Z) as Hpool.
  { apply Forall_forall. apply (bool_decide_unpack _); vm_compute; exact I. }
  assert (r.1 !! "Ann" = Some (average [8%Z])) as Hq by (vm_compute; reflexivity).
  assert (- 2 ^ 53 ≤ 0)%Z as Hlo by (vm_compute; discriminate).
  assert (9 ≤ 2 ^ 53)%Z as Hhi by (vm_compute; discriminate).
  split; [split; [exact Hlo|split; [exact Hhi|split; [apply sample_scores|by split]]]|].
  exact (raw_average_bounds sample_data sample_students (Some 0) r.1 r.2 0 9
           "Ann" (average [8%Z]) Hlo Hhi sample_scores Hpool Hq).
Defined.

Lemma normalized_monotone_witness :
  let raw_avgs : gmap string Qc := {[ "Ann" := Qc_of_Z 8; "Bob" := Qc_of_Z 7 ]} in
  let normalised := (normalize_scores raw_avgs [8; 7]%Z default_target).1.1 in
  (raw_avgs !! "Bob" = Some (Qc_of_Z 7)
   ∧ raw_avgs !! "Ann" = Some (Qc_of_Z 8)
   ∧ (Qc_of_Z 7 ≤ Qc_of_Z 8)%Qc
   ∧ normalised !! "Bob" = Some 4%Z
   ∧ normalised !! "Ann" = Some 6%Z)
  ∧ (4 ≤ 6)%Z.
Proof.
  intros raw_avgs normalised.
  assert (raw_avgs !! "Bob" = Some (Qc_of_Z 7)) as H1 by (vm_compute; reflexivity).
  assert (raw_avgs !! "Ann" = Some (Qc_of_Z 8)) as H2 by (vm_compute; reflexivity).
  assert (Qc_of_Z 7 ≤ Qc_of_Z 8)%Qc as H3
    by (apply (proj1 (Z2Qc_inj_le 7 8)); lia).
  assert (normalised !! "Bob" = Some 4%Z) as H4 by (vm_compute; reflexivity).
  assert (normalised !! "Ann" = Some 6%Z) as H5 by (vm_compute; reflexivity).
  split; [repeat split; assumption|].
  exact (normalized_monotone raw_avgs [8; 7]%Z default_target "Bob" "Ann"
           (Qc_of_Z 7) (Qc_of_Z 8) 4 6 H1 H2 H3 H4 H5).
Defined.

Lemma uniform_ratings_give_target_witness :
  let data := [["Ann"; "8"; "me"; "8"; "helpful"];
               ["Bob"; "8"; "led the work"; "8"; "me"]] in
  let r := scores_after data (Some 0) (∅, []) sample_students in
  ((Z.abs 8 ≤ 2 ^ 52)%Z
   ∧ NoDup sample_students.*1
   ∧ calculate_scores data sample_students (Some 0) = Ok (r.1, r.2)
   ∧ (∀ z, z ∈ r.2 → z = 8%Z)
   ∧ ("Ann", Cols 1 2) ∈ sample_students
   ∧ student_scores data (Some 0) ("Ann", Cols 1 2) = Ok [8%Z]
   ∧ [8%Z] ≠ [])
  ∧ (normalize_scores r.1 r.2 default_target).1.1 !! "Ann" = Some 5%Z.
Proof.
  intros data r.
  assert (calculate_scores data sample_students (Some 0) = Ok (r.1, r.2)) as H2.
  { rewrite <- surjective_pairing. apply calculate_scores_ok.
    apply (bool_decide_unpack _); vm_compute; exact I. }
  assert (∀ z, z ∈ r.2 → z = 8%Z) as H3.
  { apply Forall_forall. apply (bool_decide_unpack _); vm_compute; exact I. }
  assert (("Ann", Cols 1 2) ∈ sample_students) as H4 by apply list_elem_of_here.
  assert (student_scores data (Some 0) ("Ann", Cols 1 2) = Ok [8%Z]) as H5
    by (vm_compute; reflexivity).
  assert ([8%Z] ≠ []) as H6 by discriminate.
  assert (Z.abs 8 ≤ 2 ^ 52)%Z as H0 by (vm_compute; discriminate).
  split; [split; [exact H0|split; [apply sample_names_distinct|repeat split; assumption]]|].
  exact (uniform_ratings_give_target data sample_students (Some 0) r.1 r.2 8
           "Ann" (Cols 1 2) [8%Z] H0 sample_names_distinct H2 H3 H4 H5 H6).
Defined.

Lemma comments_of_appended_rows_witness :
  let data1 := [["Ann"; "9"; "me"; "7"; "helpful"]] in
  let data2 := [["Bob"; "8"; "led the work"; "8"; "me"]] in
  let comments1 :=
    comments_after data1 (Some 0) (DefaultDict (Some []) ∅) sample_students in
  let comments2 :=
    comments_after data2 (Some 0) (DefaultDict (Some []) ∅) sample_students in
  (NoDup sample_students.*1
   ∧ extract_comments data1 sample_students (Some 0) = Ok comments1
   ∧ extract_comments data2 sample_students (Some 0) = Ok comments2)
  ∧ ∃ comments,
      extract_comments (data1 ++ data2) sample_students (Some 0) = Ok comments
      ∧ ∀ N, default [] (dd_items comments !! N)
             = default [] (dd_items comments1 !! N)
               ++ default [] (dd_items comments2 !! N).
Proof.
  intros data1 data2 comments1 comments2.
  assert (extract_comments data1 sample_students (Some 0) = Ok comments1) as H1.
  { apply extract_comments_ok. apply (bool_decide_unpack _); vm_compute; exact I. }
  assert (extract_comments data2 sample_students (Some 0) = Ok comments2) as H2.
  { apply extract_comments_ok. apply (bool_decide_unpack _); vm_compute; exact I. }
  split; [split; [apply sample_names_distinct|repeat split; assumption]|].
  exact (comments_of_appended_rows data1 data2 sample_students (Some 0)
           comments1 comments2 sample_names_distinct H1 H2).
Defined.

Lemma sample_report_keys :
  let r := scores_after sample_data (Some 0) (∅, []) sample_students in
  ∀ s, s ∈ sample_students.*1 →
    is_Some (r.1 !! s)
    ∧ is_Some ((normalize_scores r.1 r.2 default_target).1.1 !! s).
Proof.
  intros r. apply Forall_forall.
  apply (bool_decide_unpack _); vm_compute; exact I.
Qed.

Lemma pa_report_lines_witness :
  let r := scores_after sample_data (Some 0) (∅, []) sample_students in
  let normalised := (normalize_scores r.1 r.2 default_target).1.1 in
  let comments :=
    comments_after sample_data (Some 0) (DefaultDict (Some []) ∅) sample_students in
  (default_factory comments = Some []
   ∧ ∀ s, s ∈ sample_students.*1 →
       is_Some (r.1 !! s) ∧ is_Some (normalised !! s))
  ∧ outcome (PaReport.generate_report sample_students r.1 normalised comments
               0%Qc 0%Qc "PEER ASSESSMENT REPORT") = Ok tt.
Proof.
  intros r normalised comments.
  assert (default_factory comments = Some []) as Hf by apply comments_after_factory.
  split; [split; [exact Hf|apply sample_report_keys]|].
  rewrite (pa_report_lines sample_students r.1 normalised comments 0%Qc 0%Qc
             "PEER ASSESSMENT REPORT" Hf sample_report_keys).
  reflexivity.
Defined.

Lemma peer_assessment_report_lines_witness :
  let r := scores_after sample_data (Some 0) (∅, []) sample_students in
  let normalized := (normalize_scores r.1 r.2 default_target).1.1 in
  let comments :=
    comments_after sample_data (Some 0) (DefaultDict (Some []) ∅) sample_students in
  (default_factory comments = Some []
   ∧ ∀ s, s ∈ sample_students.*1 →
       is_Some (r.1 !! s) ∧ is_Some (normalized !! s))
  ∧ outcome (PeerAssessmentReport.generate_report sample_students r.1 normalized
               comments 0%Qc 0%Qc "PEER ASSESSMENT REPORT") = Ok tt.
Proof.
  intros r normalized comments.
  assert (default_factory comments = Some []) as Hf by apply comments_after_factory.
  split; [split; [exact Hf|apply sample_report_keys]|].
  rewrite (peer_assessment_report_lines sample_students r.1 normalized comments
             0%Qc 0%Qc "PEER ASSESSMENT REPORT" Hf sample_report_keys).
  reflexivity.
Defined.

Lemma main_announces_students_witness :
  (extract_students_and_columns sample_headers).1 ≠ []
  ∧ ∃ rest, output (PaReport.main (sample_headers :: sample_data))
            = ([] ++ [Detected 2 "Ann, Bob"; Blank]) ++ rest.
Proof.
  assert ((extract_students_and_columns sample_headers).1 ≠ []) as Hne
    by (rewrite sample_registry; discriminate).
  split; [exact Hne|].
  destruct (main_announces_students sample_headers sample_data Hne)
    as [[rest Hrest] _].
  exists rest. rewrite Hrest. reflexivity.
Defined.

Lemma main_exits_without_students_witness :
  (∀ h, h ∈ ["Name"; "Score"] → overall_pattern_search h = None)
  ∧ outcome (PaReport.main (["Name"; "Score"] :: [["Ann"; "7"]]))
    = Raise (SystemExit 1).
Proof.
  assert (∀ h, h ∈ ["Name"; "Score"] → overall_pattern_search h = None) as Hnone.
  { apply Forall_forall. apply (bool_decide_unpack _); vm_compute; exact I. }
  split; [exact Hnone|].
  rewrite (proj1 (main_exits_without_students ["Name"; "Score"] [["Ann"; "7"]]
                    Hnone)).
  reflexivity.
Defined.

Lemma main_completes_witness :
  let students := (extract_students_and_columns sample_headers).1 in
  let name_col := (extract_students_and_columns sample_headers).2 in
  let r := scores_after sample_data name_col (∅, []) students in
  (calculate_scores sample_data students name_col = Ok (r.1, r.2)
   ∧ r.2 ≠ []
   ∧ ∀ z, z ∈ r.2 → (Z.abs z ≤ 2 ^ 53)%Z)
  ∧ outcome (PaReport.main (sample_headers :: sample_data)) = Ok tt
  ∧ outcome (PeerAssessmentReport.main (sample_headers :: sample_data)) = Ok tt.
Proof.
  intros students name_col r.
  assert (calculate_scores sample_data students name_col = Ok (r.1, r.2)) as Hcalc.
  { rewrite <- surjective_pairing. apply calculate_scores_ok.
    apply (bool_decide_unpack _); vm_compute; exact I. }
  assert (r.2 ≠ []) as Hpool
    by (apply (bool_decide_unpack _); vm_compute; exact I).
  assert (∀ z, z ∈ r.2 → (Z.abs z ≤ 2 ^ 53)%Z) as Hsmall.
  { apply Forall_forall. apply (bool_decide_unpack _); vm_compute; exact I. }
  split; [repeat split; assumption|].
  destruct (main_completes sample_headers sample_data r.1 r.2 Hcalc Hpool Hsmall)
    as (Hpa & Hpeer & _).
  split; assumption.
Defined.
